(** * Five9 Campaign Manager ([app.py]): model and verified properties

    The application builds PowerShell command texts, runs them, and parses
    the JSON they print.  This file embeds the functions of [app.py] that
    carry logic -- [ps_escape], the script template of
    [run_powershell_command], the install-job tracker
    ([start_install_detached], [get_install_status] and the sidebar
    handlers), [parse_campaigns_json], [parse_action_results] and the
    campaign filter -- and proves the properties the specification states
    about them.

    Conventions.  Python [str] is [string], read as ASCII text where
    letters and white space matter ([lower], [strip]); a Python object
    decoded from JSON is a [value]; a call that may raise returns an
    [outcome]; a [dict] is an association list in insertion order, kept
    free of repeated keys by [Dict.set].  What the Python runtime
    provides and the repository does not define ([json.loads], [str] of
    a float, [repr] of a string, the location of the temporary
    directory) is a field of the class [PyRuntime]. *)

From Stdlib Require Import String Ascii List ZArith Bool Lia Permutation.
From Stdlib Require Import DecimalString.
From Stdlib Require Import Floats.PrimFloat.
Import ListNotations.
Local Open Scope string_scope.
Local Set Warnings "-register-all".

(** ** Python text operations *)

Module PyStr.

Definition squote : ascii := "'"%char.
Definition dquote : ascii := ascii_of_nat 34.
Definition nl : string := String (ascii_of_nat 10) EmptyString.

(** [bool(s)]: the empty text is falsy. *)
Definition truthy (s : string) : bool :=
  match s with EmptyString => false | String _ _ => true end.

(** [value or default]. *)
Definition or_else (value default : string) : string :=
  if truthy value then value else default.

(** [s.replace(old, new)] for a pattern [old] of one character. *)
Fixpoint replace (old : ascii) (new : string) (s : string) : string :=
  match s with
  | EmptyString => EmptyString
  | String c rest =>
      if Ascii.eqb c old then new ++ replace old new rest
      else String c (replace old new rest)
  end.

(** [s.lower()] on ASCII text: the letters A-Z move to a-z, every other
    character stays. *)
Definition lower_char (c : ascii) : ascii :=
  let n := nat_of_ascii c in
  if (65 <=? n)%nat && (n <=? 90)%nat then ascii_of_nat (n + 32) else c.

Fixpoint lower (s : string) : string :=
  match s with
  | EmptyString => EmptyString
  | String c rest => String (lower_char c) (lower rest)
  end.

(** [s.strip()]: ASCII white space is removed at both ends. *)
Definition is_space (c : ascii) : bool :=
  let n := nat_of_ascii c in
  ((9 <=? n)%nat && (n <=? 13)%nat) || ((28 <=? n)%nat && (n <=? 32)%nat).

Fixpoint lstrip (s : string) : string :=
  match s with
  | EmptyString => EmptyString
  | String c rest => if is_space c then lstrip rest else s
  end.

Fixpoint rstrip (s : string) : string :=
  match s with
  | EmptyString => EmptyString
  | String c rest =>
      match rstrip rest with
      | EmptyString => if is_space c then EmptyString else String c EmptyString
      | kept => String c kept
      end
  end.

Definition strip (s : string) : string := rstrip (lstrip s).

(** [str(n)] for an [int]. *)
Definition of_Z (n : Z) : string := NilZero.string_of_int (Z.to_int n).

(** A text written with a back quote wherever the JSON document has a
    double quote. *)
Definition jtext (s : string) : string :=
  replace "`"%char (String dquote EmptyString) s.

End PyStr.

(** ** Command texts *)

(** [ps_escape], line 41. *)
Definition ps_escape (value : string) : string :=
  PyStr.replace PyStr.squote "''" (PyStr.or_else value EmptyString).

(** [ps_base_args], line 22. *)
Definition ps_base_args (command : string) : list string :=
  [ "powershell.exe"; "-NoLogo"; "-NoProfile"; "-NonInteractive";
    "-ExecutionPolicy"; "Bypass"; "-WindowStyle"; "Hidden";
    "-Command"; command ].

(** The three fixed parts of the f-string of [run_powershell_command],
    lines 99 to 105: up to the password, between password and user name,
    and from the user name to the command. *)
Definition script_head : string :=
  PyStr.nl ++ "$ErrorActionPreference = 'Stop'" ++ PyStr.nl
  ++ "$secpasswd = ConvertTo-SecureString '".

Definition script_after_password : string :=
  "' -AsPlainText -Force" ++ PyStr.nl
  ++ "$creds = New-Object System.Management.Automation.PSCredential ('".

Definition script_after_user : string :=
  "', $secpasswd)" ++ PyStr.nl
  ++ "Connect-Five9AdminWebService -Credential $creds" ++ PyStr.nl.

(** The script [run_powershell_command] hands to the interpreter. *)
Definition ps_script (username password command : string) : string :=
  let safe_user := ps_escape username in
  let safe_pwd := ps_escape password in
  script_head ++ safe_pwd ++ script_after_password ++ safe_user
  ++ script_after_user ++ command ++ PyStr.nl.

(** The first line of the bulk action's command, line 371, for the text
    [dumped] that [json.dumps(selected_campaigns)] returned. *)
Definition campaigns_assignment (dumped : string) : string :=
  let safe_campaigns_json := ps_escape dumped in
  PyStr.nl ++ "$campaigns = ConvertFrom-Json '" ++ safe_campaigns_json
  ++ "'" ++ PyStr.nl.

(** Modelled from the spec: the interpreter that reads the command text is
    not part of the repository.  The specification gives its rule for a
    single-quoted literal: a single quote inside the literal is written
    doubled, so the reader takes two quotes in a row as one quote of the
    value and a quote on its own as the end of the literal.
    [ps_read_literal s] reads the text [s] that follows the opening quote
    and returns the value of the literal and the text after its closing
    quote; it returns [None] when the literal never ends. *)
Fixpoint ps_read_literal (s : string) : option (string * string) :=
  match s with
  | EmptyString => None
  | String c rest =>
      if Ascii.eqb c PyStr.squote then
        match rest with
        | String c' rest' =>
            if Ascii.eqb c' PyStr.squote then
              match ps_read_literal rest' with
              | Some (v, after) => Some (String PyStr.squote v, after)
              | None => None
              end
            else Some (EmptyString, rest)
        | EmptyString => Some (EmptyString, EmptyString)
        end
      else
        match ps_read_literal rest with
        | Some (v, after) => Some (String c v, after)
        | None => None
        end
  end.

(** The text after a literal's closing quote does not itself open with a
    quote (in the templates of [app.py] a blank, a comma or a line end
    follows). *)
Definition no_leading_quote (s : string) : bool :=
  match s with
  | EmptyString => true
  | String c _ => negb (Ascii.eqb c PyStr.squote)
  end.

(** ** Python values and exceptions *)

(** What [json.loads] can return: [None], [bool], [int], [float], [str],
    [list] and [dict] with text keys. *)
Inductive value : Type :=
| VNone
| VBool (b : bool)
| VInt (n : Z)
| VFloat (x : float)
| VStr (s : string)
| VList (l : list value)
| VDict (d : list (string * value)).

(** The exceptions the modelled code meets: the decoder's own error, the
    error of asking a non-[dict] for [items] or [get], and any other
    exception of the decoder (named by its class). *)
Inductive exn : Type :=
| JSONDecodeError
| AttributeError (attribute : string)
| OtherError (class_name : string).

(** The result of a call: a return value, or a raised exception. *)
Inductive outcome (A : Type) : Type :=
| Return (a : A)
| Raise (e : exn).

Arguments Return {A} a.
Arguments Raise {A} e.

Definition bind {A B : Type} (m : outcome A) (k : A -> outcome B) : outcome B :=
  match m with
  | Return a => k a
  | Raise e => Raise e
  end.

Notation "x <- m ;; k" := (bind m (fun x => k))
  (at level 61, m at next level, right associativity).

(** [returns m]: the call returned (it raised nothing). *)
Definition returns {A : Type} (m : outcome A) : bool :=
  match m with Return _ => true | Raise _ => false end.

(** What the Python runtime supplies. *)
Class PyRuntime : Type := {
  (** [json.loads] on a text. *)
  json_loads : string -> outcome value;
  (** [str(x)] for a [float]. *)
  float_str : float -> string;
  (** [repr(s)] for a text. *)
  str_repr : string -> string;
  (** [str(_INSTALL_DIR / name)]: the full path of a file of the
      installer's scratch directory. *)
  install_path : string -> string
}.

(** ** Dictionaries in insertion order *)

Module Dict.

Section WithValues.
Context {V : Type}.

(** [d.get(key)], [None] when the key is absent. *)
Fixpoint get (d : list (string * V)) (key : string) : option V :=
  match d with
  | [] => None
  | (k, v) :: rest => if String.eqb k key then Some v else get rest key
  end.

(** [d.get(key, default)]. *)
Definition get_default (d : list (string * V)) (key : string) (default : V) : V :=
  match get d key with
  | Some v => v
  | None => default
  end.

(** [d[key] = v]: a present key keeps its place and takes the new value,
    a new key goes to the end. *)
Fixpoint set (d : list (string * V)) (key : string) (v : V) : list (string * V) :=
  match d with
  | [] => [(key, v)]
  | (k, w) :: rest =>
      if String.eqb k key then (k, v) :: rest else (k, w) :: set rest key v
  end.

Definition keys (d : list (string * V)) : list string := map fst d.

End WithValues.

End Dict.

(** [STATE_MAP.get(code, default)] on a table keyed by integers. *)
Fixpoint table_get (table : list (Z * string)) (code : Z) (default : string) : string :=
  match table with
  | [] => default
  | (k, label) :: rest => if Z.eqb k code then label else table_get rest code default
  end.

Section Values.
Context {rt : PyRuntime}.

(** [bool(v)]. *)
Definition truthy (v : value) : bool :=
  match v with
  | VNone => false
  | VBool b => b
  | VInt n => negb (Z.eqb n 0)
  | VFloat x => negb (PrimFloat.eqb x 0%float)
  | VStr s => PyStr.truthy s
  | VList l => match l with [] => false | _ :: _ => true end
  | VDict d => match d with [] => false | _ :: _ => true end
  end.

(** [repr(v)]. *)
Fixpoint py_repr (v : value) : string :=
  match v with
  | VNone => "None"
  | VBool true => "True"
  | VBool false => "False"
  | VInt n => PyStr.of_Z n
  | VFloat x => float_str x
  | VStr s => str_repr s
  | VList l => "[" ++ String.concat ", " (map py_repr l) ++ "]"
  | VDict d =>
      "{" ++ String.concat ", "
               (map (fun kv => match kv with
                               | (k, w) => str_repr k ++ ": " ++ py_repr w
                               end) d)
      ++ "}"
  end.

(** [str(v)]: a text is itself, everything else prints as its [repr]. *)
Definition py_str (v : value) : string :=
  match v with
  | VStr s => s
  | _ => py_repr v
  end.

(** [isinstance(v, int)] together with the integer [v] is: [bool] is a
    subclass of [int] in Python, [True] being [1] and [False] being [0],
    as a key of a [dict] too. *)
Definition as_int (v : value) : option Z :=
  match v with
  | VInt n => Some n
  | VBool b => Some (Z.b2z b)
  | _ => None
  end.

(** [v or default]. *)
Definition value_or (v default : value) : value :=
  if truthy v then v else default.

(** [v.items()] and the bound method [v.get]: only a [dict] has them. *)
Definition items (v : value) : outcome (list (string * value)) :=
  match v with
  | VDict d => Return d
  | _ => Raise (AttributeError "items")
  end.

Definition getter (v : value) : outcome (list (string * value)) :=
  match v with
  | VDict d => Return d
  | _ => Raise (AttributeError "get")
  end.

(** Lines 130 to 135 and 196 to 201: one object is a collection of one,
    an array is its elements, anything else holds no record. *)
Definition records_of (parsed : value) : list value :=
  match parsed with
  | VDict _ => [parsed]
  | VList l => l
  | _ => []
  end.

End Values.

(** ** The result normalizer *)

(** A row of the campaigns table.  [Name] holds the decoded object as it
    came ([parse_campaigns_json] does not convert it); [State] and [Type]
    are texts. *)
Record campaign : Type := {
  Name : value;
  State : string;
  Type_ : string
}.

(** A [pandas.DataFrame] with the columns Name, State and Type: its rows
    in order. *)
Definition DataFrame : Type := list campaign.

(** [pd.DataFrame(columns=["Name", "State", "Type"])]. *)
Definition empty_frame : DataFrame := [].

(** [pd.DataFrame.from_records] on rows that all have the three keys. *)
Definition from_records (rows : list campaign) : DataFrame := rows.

(** [df.empty]. *)
Definition frame_empty (df : DataFrame) : bool :=
  match df with [] => true | _ :: _ => false end.

(** Lines 117 and 118. *)
Definition STATE_MAP : list (Z * string) :=
  [(0%Z, "NotRunning"); (1%Z, "Starting"); (2%Z, "Running"); (3%Z, "Stopping")].

Definition TYPE_MAP : list (Z * string) :=
  [(0%Z, "Inbound"); (1%Z, "Outbound"); (2%Z, "AutoDial")].

Section Normalizer.
Context {rt : PyRuntime}.

(** Line 139: [{k.lower(): v for k, v in rec.items()}].  The items are
    entered in order, so of two keys with one lower-case spelling the
    later one gives the value. *)
Fixpoint lower_keys_into (acc rec : list (string * value)) : list (string * value) :=
  match rec with
  | [] => acc
  | (k, v) :: rest => lower_keys_into (Dict.set acc (PyStr.lower k) v) rest
  end.

Definition lower_keys (rec : list (string * value)) : list (string * value) :=
  lower_keys_into [] rec.

(** Lines 144 to 152: a code that is an [int] goes through the table,
    with its text as the default; any other object becomes its text. *)
Definition label_of (table : list (Z * string)) (raw : value) : string :=
  match as_int raw with
  | Some code => table_get table code (py_str raw)
  | None => py_str raw
  end.

(** Lines 139 to 154: the body of the loop, for a record's items. *)
Definition normalize_record (rec : list (string * value)) : campaign :=
  let lower_rec := lower_keys rec in
  let name := Dict.get_default lower_rec "name" (VStr EmptyString) in
  let raw_state := Dict.get_default lower_rec "state" (VStr EmptyString) in
  let raw_type := Dict.get_default lower_rec "type" (VStr EmptyString) in
  {| Name := name;
     State := label_of STATE_MAP raw_state;
     Type_ := label_of TYPE_MAP raw_type |}.

(** Lines 137 to 154: the loop, with [normalized] as accumulator. *)
Fixpoint normalize_loop (records : list value) (normalized : list campaign)
  : outcome (list campaign) :=
  match records with
  | [] => Return normalized
  | rec :: rest =>
      kvs <- items rec ;;
      normalize_loop rest (normalized ++ [normalize_record kvs])%list
  end.

(** [parse_campaigns_json], line 121. *)
Definition parse_campaigns_json (raw_json : string) : outcome DataFrame :=
  if negb (PyStr.truthy raw_json) then Return empty_frame
  else
    match json_loads raw_json with
    | Raise JSONDecodeError => Return empty_frame
    | Raise e => Raise e
    | Return parsed =>
        normalized <- normalize_loop (records_of parsed) [] ;;
        let df := from_records normalized in
        if frame_empty df then Return empty_frame else Return df
    end.

(** The two results of [parse_action_results]. *)
Definition action_results : Type := (list string * list (string * string))%type.

(** Lines 206 to 210: the body of the loop, for a record's [get]. *)
Definition classify_record (record : list (string * value))
  (acc : action_results) : action_results :=
  let '(successes, failures) := acc in
  let name := py_str (Dict.get_default record "Name" (VStr "(unknown)")) in
  if truthy (Dict.get_default record "Success" VNone) then
    ((successes ++ [name])%list, failures)
  else
    (successes,
     Dict.set failures name
       (py_str (value_or (Dict.get_default record "Error" VNone)
                         (VStr "Unknown error")))).

(** Lines 203 to 212: the loop. *)
Fixpoint classify_loop (records : list value) (acc : action_results)
  : outcome action_results :=
  match records with
  | [] => Return acc
  | record :: rest =>
      kvs <- getter record ;;
      classify_loop rest (classify_record kvs acc)
  end.

(** [parse_action_results], line 187. *)
Definition parse_action_results (raw_json : string) : outcome action_results :=
  if negb (PyStr.truthy raw_json) then Return ([], [])
  else
    match json_loads raw_json with
    | Raise JSONDecodeError =>
        Return ([], [("(unknown)", "Failed to parse PowerShell result.")])
    | Raise e => Raise e
    | Return parsed => classify_loop (records_of parsed) ([], [])
    end.

End Normalizer.

(** ** The campaign filter *)

(** Line 314: [campaigns_df["State"].str.lower() == "running"]. *)
Definition running_mask (campaigns_df : DataFrame) : list bool :=
  map (fun row => String.eqb (PyStr.lower (State row)) "running") campaigns_df.

(** [df[mask]]: the rows whose mask entry is true. *)
Fixpoint select (df : DataFrame) (mask : list bool) : DataFrame :=
  match df, mask with
  | row :: rows, keep :: more =>
      if keep then row :: select rows more else select rows more
  | _, _ => []
  end.

(** [~mask]. *)
Definition invert (mask : list bool) : list bool := map negb mask.

(** Lines 313 to 324: the rows shown for the radio choice. *)
Definition filtered_df (status_choice : string) (campaigns_df : DataFrame) : DataFrame :=
  if negb (frame_empty campaigns_df) then
    let mask := running_mask campaigns_df in
    if String.eqb status_choice "Running" then select campaigns_df mask
    else select campaigns_df (invert mask)
  else empty_frame.

(** The two labels of the radio, line 309. *)
Definition choice_running : string := "Running".
Definition choice_otherwise : string := "Otherwise (Stopped/Stopping)".

(** ** The install job *)

(** The files of the installer's scratch directory, lines 17 to 19 and
    69. *)
Inductive artifact : Type :=
| _INSTALL_STDOUT
| _INSTALL_STDERR
| _INSTALL_LOCK
| script_file.

(** The scratch directory: for each file its text, or [None] when the
    file does not exist. *)
Record files : Type := {
  stdout_txt : option string;
  stderr_txt : option string;
  running_lock : option string;
  install_script_ps1 : option string
}.

Definition file_name (f : artifact) : string :=
  match f with
  | _INSTALL_STDOUT => "stdout.txt"
  | _INSTALL_STDERR => "stderr.txt"
  | _INSTALL_LOCK => "running.lock"
  | script_file => "install_script.ps1"
  end.

Definition content (fs : files) (f : artifact) : option string :=
  match f with
  | _INSTALL_STDOUT => stdout_txt fs
  | _INSTALL_STDERR => stderr_txt fs
  | _INSTALL_LOCK => running_lock fs
  | script_file => install_script_ps1 fs
  end.

Definition put (fs : files) (f : artifact) (c : option string) : files :=
  match f with
  | _INSTALL_STDOUT =>
      {| stdout_txt := c; stderr_txt := stderr_txt fs;
         running_lock := running_lock fs;
         install_script_ps1 := install_script_ps1 fs |}
  | _INSTALL_STDERR =>
      {| stdout_txt := stdout_txt fs; stderr_txt := c;
         running_lock := running_lock fs;
         install_script_ps1 := install_script_ps1 fs |}
  | _INSTALL_LOCK =>
      {| stdout_txt := stdout_txt fs; stderr_txt := stderr_txt fs;
         running_lock := c;
         install_script_ps1 := install_script_ps1 fs |}
  | script_file =>
      {| stdout_txt := stdout_txt fs; stderr_txt := stderr_txt fs;
         running_lock := running_lock fs;
         install_script_ps1 := c |}
  end.

(** [f.exists()], [f.write_text(text)], [f.read_text()] of a file that
    exists, and [f.unlink()]. *)
Definition file_exists (fs : files) (f : artifact) : bool :=
  match content fs f with Some _ => true | None => false end.

Definition write_text (fs : files) (f : artifact) (text : string) : files :=
  put fs f (Some text).

Definition read_text (fs : files) (f : artifact) : string :=
  match content fs f with Some text => text | None => EmptyString end.

Definition unlink (fs : files) (f : artifact) : files := put fs f None.

(** The directory with no file in it. *)
Definition no_files : files :=
  {| stdout_txt := None; stderr_txt := None; running_lock := None;
     install_script_ps1 := None |}.

(** What [get_install_status] returns. *)
Record install_status : Type := {
  running : bool;
  stdout : string;
  stderr : string;
  done : bool
}.

(** [get_install_status], line 87. *)
Definition get_install_status (fs : files) : install_status :=
  let running := file_exists fs _INSTALL_LOCK in
  let stdout :=
    if file_exists fs _INSTALL_STDOUT
    then PyStr.strip (read_text fs _INSTALL_STDOUT) else EmptyString in
  let stderr :=
    if file_exists fs _INSTALL_STDERR
    then PyStr.strip (read_text fs _INSTALL_STDERR) else EmptyString in
  let done :=
    negb running
    && (file_exists fs _INSTALL_STDOUT || file_exists fs _INSTALL_STDERR) in
  {| running := running; stdout := stdout; stderr := stderr; done := done |}.

(** The status of a job that was never started or was cleared. *)
Definition idle_status : install_status :=
  {| running := false; stdout := EmptyString; stderr := EmptyString;
     done := false |}.

(** What a handler shows to the operator. *)
Inductive notice : Type :=
| Warning (text : string)
| Info (text : string)
| Error (text : string)
| Success (text : string).

(** Lines 232 to 235. *)
Definition install_command : string :=
  "irm 'https://raw.githubusercontent.com/Five9DeveloperProgram/PSFive9Admin/"
  ++ "main/installer.ps1' | iex".

Section InstallJob.
Context {rt : PyRuntime}.

(** Lines 63 to 67. *)
Definition wrapper_script (command : string) : string :=
  "try { " ++ command ++ " | Out-File -FilePath '"
  ++ install_path (file_name _INSTALL_STDOUT) ++ "' -Encoding utf8 } "
  ++ "catch { $_.Exception.Message | Out-File -FilePath '"
  ++ install_path (file_name _INSTALL_STDERR) ++ "' -Encoding utf8 }"
  ++ PyStr.nl
  ++ "finally { Remove-Item -Path '"
  ++ install_path (file_name _INSTALL_LOCK)
  ++ "' -Force -ErrorAction SilentlyContinue }".

(** Lines 72 to 77. *)
Definition launch_cmd : string :=
  "Start-Process powershell.exe "
  ++ "-ArgumentList '-NoLogo','-NoProfile','-NonInteractive',"
  ++ "'-ExecutionPolicy','Bypass','-File','"
  ++ install_path (file_name script_file) ++ "' "
  ++ "-WindowStyle Hidden".

(** [start_install_detached], line 56: the directory after its writes,
    and the argument vectors it passed to [subprocess.run]. *)
Definition start_install_detached (command : string) (fs : files)
  : files * list (list string) :=
  let fs := fold_left (fun fs f => write_text fs f EmptyString)
                      [_INSTALL_STDOUT; _INSTALL_STDERR] fs in
  let fs := write_text fs _INSTALL_LOCK "running" in
  let fs := write_text fs script_file (wrapper_script command) in
  (fs, [ps_base_args launch_cmd]).

(** Lines 231 to 241: the handler of the button Install/Update Five9
    Module. *)
Definition install_clicked (fs : files) : files * list (list string) * notice :=
  let pre_status := get_install_status fs in
  if running pre_status then
    (fs, [], Warning "Install already in progress.")
  else
    let '(fs', spawned) := start_install_detached install_command fs in
    (fs', spawned,
     Info "Install started in background. Click 'Check Installer Status' to view results.").

(** Lines 261 to 263: the loop of the button Clear Install Status. *)
Definition clear_install_status (fs : files) : files :=
  fold_left (fun fs f => if file_exists fs f then unlink fs f else fs)
            [_INSTALL_LOCK; _INSTALL_STDOUT; _INSTALL_STDERR] fs.

(** Lines 243 to 264: the two buttons are drawn, and a click on one is
    seen, only while the job is running or done. *)
Definition panel_shown (fs : files) : bool :=
  let install_status := get_install_status fs in
  running install_status || done install_status.

Definition clear_clicked (fs : files) : files * list notice :=
  if panel_shown fs then
    (clear_install_status fs, [Info "Install status cleared."])
  else (fs, []).

(** Lines 248 to 258: the button Check Installer Status; it returns the
    new [last_stdout] and [last_stderr] of the session, given the old
    ones. *)
Definition check_clicked (fs : files) (last : string * string)
  : (string * string) * list notice :=
  if panel_shown fs then
    let status := get_install_status fs in
    if running status then (last, [Info "Install still running..."])
    else
      ((stdout status, stderr status),
       [if PyStr.truthy (stderr status)
        then Error "Module install failed. Check Debug Console."
        else Success "Module installed/updated. Check Debug Console for details."])
  else (last, []).

(** Lines 236 to 241 when the scratch directory is shared with other
    sessions: [checked] is the directory as line 236 read it, [now] the
    directory when line 240 runs.  Nothing in the source holds the
    directory between the two lines, so another session may have acted
    in between; [install_clicked] is the case where none did. *)
Definition install_clicked_between (checked now : files)
  : files * list (list string) * notice :=
  let pre_status := get_install_status checked in
  if running pre_status then
    (now, [], Warning "Install already in progress.")
  else
    let '(fs', spawned) := start_install_detached install_command now in
    (fs', spawned,
     Info "Install started in background. Click 'Check Installer Status' to view results.").

End InstallJob.

(** ** A reference runtime

    The theorems below hold for every [PyRuntime].  To run the model on
    concrete documents this module gives one: a reader for the part of
    JSON that the examples use (objects, arrays, texts with the short
    escapes, integers, [true], [false], [null], white space, and the
    words [NaN], [Infinity] and [-Infinity] that [json.loads] accepts
    beside JSON).  A document outside that part (a fraction or exponent,
    a [\u] escape) makes the reader answer [Beyond], which [loads]
    reports as an exception other than [JSONDecodeError]. *)

Module Ref.

Inductive reading (A : Type) : Type :=
| Got (a : A) (rest : string)
| Bad
| Beyond.

Arguments Got {A} a rest.
Arguments Bad {A}.
Arguments Beyond {A}.

Definition is_ws (c : ascii) : bool :=
  let n := nat_of_ascii c in
  (n =? 32)%nat || (n =? 9)%nat || (n =? 10)%nat || (n =? 13)%nat.

Fixpoint skip_ws (s : string) : string :=
  match s with
  | String c rest => if is_ws c then skip_ws rest else s
  | EmptyString => EmptyString
  end.

Definition digit_of (c : ascii) : option Z :=
  let n := nat_of_ascii c in
  if (48 <=? n)%nat && (n <=? 57)%nat then Some (Z.of_nat (n - 48)) else None.

(** The digits at the front of [s], read after the digits [acc]. *)
Fixpoint read_digits (acc : Z) (s : string) : Z * string :=
  match s with
  | String c rest =>
      match digit_of c with
      | Some d => read_digits (acc * 10 + d)%Z rest
      | None => (acc, s)
      end
  | EmptyString => (acc, s)
  end.

Definition starts_fraction (s : string) : bool :=
  match s with
  | String c _ =>
      Ascii.eqb c "."%char || Ascii.eqb c "e"%char || Ascii.eqb c "E"%char
  | EmptyString => false
  end.

(** An integer without sign: a lone zero, or digits that do not start
    with zero. *)
Definition read_natural (s : string) : reading Z :=
  match s with
  | String c rest =>
      match digit_of c with
      | Some 0%Z => if starts_fraction rest then Beyond else Got 0%Z rest
      | Some d =>
          let '(n, rest') := read_digits d rest in
          if starts_fraction rest' then Beyond else Got n rest'
      | None => Bad
      end
  | EmptyString => Bad
  end.

(** The rest [tail] of a keyword. *)
Fixpoint expect (tail s : string) : option string :=
  match tail, s with
  | EmptyString, _ => Some s
  | String a tail', String c rest =>
      if Ascii.eqb a c then expect tail' rest else None
  | String _ _, EmptyString => None
  end.

Definition unescape (c : ascii) : option ascii :=
  let n := nat_of_ascii c in
  if (n =? 34)%nat || (n =? 92)%nat || (n =? 47)%nat then Some c
  else if Ascii.eqb c "b"%char then Some (ascii_of_nat 8)
  else if Ascii.eqb c "f"%char then Some (ascii_of_nat 12)
  else if Ascii.eqb c "n"%char then Some (ascii_of_nat 10)
  else if Ascii.eqb c "r"%char then Some (ascii_of_nat 13)
  else if Ascii.eqb c "t"%char then Some (ascii_of_nat 9)
  else None.

(** The text of a string after its opening double quote. *)
Fixpoint read_string (s : string) : reading string :=
  match s with
  | EmptyString => Bad
  | String c rest =>
      let n := nat_of_ascii c in
      if (n =? 34)%nat then Got EmptyString rest
      else if (n =? 92)%nat then
        match rest with
        | String e rest' =>
            if Ascii.eqb e "u"%char then Beyond
            else
              match unescape e with
              | Some c' =>
                  match read_string rest' with
                  | Got t after => Got (String c' t) after
                  | Bad => Bad
                  | Beyond => Beyond
                  end
              | None => Bad
              end
        | EmptyString => Bad
        end
      else if (n <? 32)%nat then Bad
      else
        match read_string rest with
        | Got t after => Got (String c t) after
        | Bad => Bad
        | Beyond => Beyond
        end
  end.

Definition keyword (tail : string) (v : value) (s : string) : reading value :=
  match expect tail s with
  | Some rest => Got v rest
  | None => Bad
  end.

Section Reader.

(** [json.loads] reads three words that are no JSON, [NaN], [Infinity]
    and [-Infinity], as the floats they name; a reader of JSON proper
    refuses them.  [nan_ok] tells which of the two this reader is. *)
Variable nan_ok : bool.

Definition constant (tail : string) (x : float) (s : string) : reading value :=
  if nan_ok then keyword tail (VFloat x) s else Bad.

(** A value at the front of [s]; the elements of an array after its
    bracket or a comma; the members of an object from a key's opening
    double quote on. *)
Fixpoint read_value (fuel : nat) (s : string) : reading value :=
  match fuel with
  | 0 => Beyond
  | S fuel' =>
      match skip_ws s with
      | EmptyString => Bad
      | String c rest =>
          let n := nat_of_ascii c in
          if (n =? 123)%nat then
            match skip_ws rest with
            | String c' rest' =>
                if (nat_of_ascii c' =? 125)%nat then Got (VDict []) rest'
                else read_members fuel' (String c' rest') []
            | EmptyString => Bad
            end
          else if (n =? 91)%nat then
            match skip_ws rest with
            | String c' rest' =>
                if (nat_of_ascii c' =? 93)%nat then Got (VList []) rest'
                else read_elements fuel' (String c' rest') []
            | EmptyString => Bad
            end
          else if (n =? 34)%nat then
            match read_string rest with
            | Got t after => Got (VStr t) after
            | Bad => Bad
            | Beyond => Beyond
            end
          else if Ascii.eqb c "n"%char then keyword "ull" VNone rest
          else if Ascii.eqb c "t"%char then keyword "rue" (VBool true) rest
          else if Ascii.eqb c "f"%char then keyword "alse" (VBool false) rest
          else if Ascii.eqb c "N"%char then constant "aN" nan rest
          else if Ascii.eqb c "I"%char then constant "nfinity" infinity rest
          else if Ascii.eqb c "-"%char then
            match rest with
            | String c' _ =>
                if Ascii.eqb c' "I"%char then constant "Infinity" neg_infinity rest
                else
                  match read_natural rest with
                  | Got m after => Got (VInt (- m)) after
                  | Bad => Bad
                  | Beyond => Beyond
                  end
            | EmptyString => Bad
            end
          else
            match read_natural (String c rest) with
            | Got m after => Got (VInt m) after
            | Bad => Bad
            | Beyond => Beyond
            end
      end
  end
with read_elements (fuel : nat) (s : string) (acc : list value) : reading value :=
  match fuel with
  | 0 => Beyond
  | S fuel' =>
      match read_value fuel' s with
      | Got v after =>
          match skip_ws after with
          | String c rest =>
              if Ascii.eqb c ","%char then
                read_elements fuel' (skip_ws rest) (acc ++ [v])%list
              else if (nat_of_ascii c =? 93)%nat then
                Got (VList (acc ++ [v])%list) rest
              else Bad
          | EmptyString => Bad
          end
      | Bad => Bad
      | Beyond => Beyond
      end
  end
with read_members (fuel : nat) (s : string) (acc : list (string * value))
  : reading value :=
  match fuel with
  | 0 => Beyond
  | S fuel' =>
      match s with
      | String q rest =>
          if (nat_of_ascii q =? 34)%nat then
            match read_string rest with
            | Got key after =>
                match skip_ws after with
                | String colon after' =>
                    if Ascii.eqb colon ":"%char then
                      match read_value fuel' after' with
                      | Got v after'' =>
                          match skip_ws after'' with
                          | String c rest' =>
                              if Ascii.eqb c ","%char then
                                read_members fuel' (skip_ws rest')
                                             (Dict.set acc key v)
                              else if (nat_of_ascii c =? 125)%nat then
                                Got (VDict (Dict.set acc key v)) rest'
                              else Bad
                          | EmptyString => Bad
                          end
                      | Bad => Bad
                      | Beyond => Beyond
                      end
                    else Bad
                | EmptyString => Bad
                end
            | Bad => Bad
            | Beyond => Beyond
            end
          else Bad
      | EmptyString => Bad
      end
  end.

(** The whole document: one value, then nothing but white space. *)
Definition loads_with (s : string) : outcome value :=
  match read_value (2 * String.length s + 2) s with
  | Got v rest =>
      match skip_ws rest with
      | EmptyString => Return v
      | String _ _ => Raise JSONDecodeError
      end
  | Bad => Raise JSONDecodeError
  | Beyond => Raise (OtherError "NotImplementedError")
  end.

End Reader.

(** The reader as [json.loads] reads, and the reader of JSON proper: the
    second tells whether a document of the part read here is
    syntactically valid JSON. *)
Definition loads (s : string) : outcome value := loads_with true s.

Definition strict_loads (s : string) : outcome value := loads_with false s.

(** [repr] of a text of printable ASCII characters: single quotes around
    it, a backslash before a backslash and before a single quote. *)
Fixpoint repr_body (s : string) : string :=
  match s with
  | EmptyString => EmptyString
  | String c rest =>
      if Ascii.eqb c PyStr.squote || (nat_of_ascii c =? 92)%nat
      then String (ascii_of_nat 92) (String c (repr_body rest))
      else String c (repr_body rest)
  end.

Definition repr (s : string) : string :=
  String PyStr.squote (repr_body s) ++ String PyStr.squote EmptyString.

(** The only floats the reader returns are the three it reads from a
    word; [str] prints them as nan, inf and -inf.  The text of zero
    completes the function for the floats no example meets. *)
Definition float_text (x : float) : string :=
  if PrimFloat.eqb x x then
    if PrimFloat.eqb x infinity then "inf"
    else if PrimFloat.eqb x neg_infinity then "-inf"
    else "0.0"
  else "nan".

Definition temp_path (name : string) : string :=
  "C:\Temp\five9_installer\" ++ name.

#[export] Instance runtime : PyRuntime := {
  json_loads := loads;
  float_str := float_text;
  str_repr := repr;
  install_path := temp_path
}.

End Ref.

(** ** The words of the specification

    Definitions that follow the specification's sentences, to compare
    with the functions above. *)

Definition is_dict (v : value) : bool :=
  match v with VDict _ => true | _ => false end.

(** The decoded document holds nothing but objects where records are
    looked for: it is an object, an array of objects, or a value with no
    records at all (a number, a text, a boolean, [null]). *)
Definition only_objects (parsed : value) : bool :=
  forallb is_dict (records_of parsed).

(** A number, a text, a boolean or [null]. *)
Definition is_scalar (v : value) : bool :=
  match v with
  | VDict _ | VList _ => false
  | _ => true
  end.

(** The keys of a record, spelled by [respell]. *)
Definition respelled (respell : string -> string) (rec : list (string * value))
  : list (string * value) :=
  map (fun kv => (respell (fst kv), snd kv)) rec.

(** None of the keys is one of the three fields as [parse_action_results]
    spells them. *)
Definition no_exact_field (record : list (string * value)) : bool :=
  forallb (fun k => negb (String.eqb k "Name" || String.eqb k "Success"
                          || String.eqb k "Error"))
          (Dict.keys record).

Section SpecWords.
Context {rt : PyRuntime}.

(** "A record missing a name defaults to (unknown)." *)
Definition spec_name (record : list (string * value)) : string :=
  match Dict.get record "Name" with
  | Some v => py_str v
  | None => "(unknown)"
  end.

(** "A missing or falsy Success is treated as failure." *)
Definition spec_success (record : list (string * value)) : bool :=
  match Dict.get record "Success" with
  | Some v => truthy v
  | None => false
  end.


(** "A missing error message defaults to Unknown error": the message of
    the record when it has one ([null] and the empty text are none). *)
Definition spec_error (record : list (string * value)) : string :=
  match Dict.get record "Error" with
  | Some v => if truthy v then py_str v else "Unknown error"
  | None => "Unknown error"
  end.



End SpecWords.

(** ** The session and the handlers around the parsers *)

Module App.

(** What [st.session_state] holds under a key: the campaigns table or a
    text. *)
Inductive session_value : Type :=
| Frame (df : DataFrame)
| Text (s : string).

(** [get_default_state], line 163. *)
Definition get_default_state : list (string * session_value) :=
  [ ("campaigns_df", Frame empty_frame);
    ("last_stdout", Text EmptyString);
    ("last_stderr", Text EmptyString);
    ("cached_user", Text EmptyString);
    ("cached_pass", Text EmptyString) ].

(** [key in d]. *)
Definition contains {V : Type} (d : list (string * V)) (key : string) : bool :=
  match Dict.get d key with Some _ => true | None => false end.

(** Lines 174 to 176: every default whose key the session does not hold
    yet is entered. *)
Definition fill_defaults (defaults session_state : list (string * session_value))
  : list (string * session_value) :=
  fold_left (fun st kv =>
               if negb (contains st (fst kv)) then Dict.set st (fst kv) (snd kv)
               else st)
            defaults session_state.

Definition init_session_state (session_state : list (string * session_value))
  : list (string * session_value) :=
  fill_defaults get_default_state session_state.

(** The session once the five keys are there, as the handlers read and
    write it. *)
Record session : Type := {
  campaigns_df : DataFrame;
  last_stdout : string;
  last_stderr : string;
  cached_user : string;
  cached_pass : string
}.

Definition set_campaigns (st : session) (df : DataFrame) : session :=
  {| campaigns_df := df;
     last_stdout := last_stdout st; last_stderr := last_stderr st;
     cached_user := cached_user st; cached_pass := cached_pass st |}.

Definition set_last (st : session) (out err : string) : session :=
  {| campaigns_df := campaigns_df st;
     last_stdout := out; last_stderr := err;
     cached_user := cached_user st; cached_pass := cached_pass st |}.

Definition set_cached (st : session) (user pass : string) : session :=
  {| campaigns_df := campaigns_df st;
     last_stdout := last_stdout st; last_stderr := last_stderr st;
     cached_user := user; cached_pass := pass |}.

(** [get_effective_credentials], line 179. *)
Definition get_effective_credentials (st : session)
  (username password : string) (use_cached : bool) : string * string :=
  if PyStr.truthy username && PyStr.truthy password then (username, password)
  else if use_cached && PyStr.truthy (cached_user st)
          && PyStr.truthy (cached_pass st)
  then (cached_user st, cached_pass st)
  else (username, password).

(** Both texts of a pair of credentials are there. *)
Definition usable (creds : string * string) : bool :=
  PyStr.truthy (fst creds) && PyStr.truthy (snd creds).

(** Lines 222 to 229: the check box Remember credentials and the button
    Clear cached credentials, which is drawn (and can be clicked) only
    when both cached texts are there. *)
Definition sidebar_credentials (username password : string)
  (remember_creds clear_clicked : bool) (st : session) : session * list notice :=
  let st :=
    if remember_creds && PyStr.truthy username && PyStr.truthy password
    then set_cached st username password else st in
  if PyStr.truthy (cached_user st) && PyStr.truthy (cached_pass st) then
    if clear_clicked then
      (set_cached st EmptyString EmptyString, [Info "Cached credentials cleared."])
    else (st, [])
  else (st, []).

(** What [subprocess.run] captured of a process that ended: its stdout
    and its stderr. *)
Definition completed : Type := (string * string)%type.

(** [run_powershell_command], line 96: the argument vector it runs, and
    what it returns once the process has ended with [captured]. *)
Definition run_powershell_command (username password command : string)
  (captured : completed) : list string * (string * string) :=
  (ps_base_args (ps_script username password command),
   (PyStr.strip (fst captured), PyStr.strip (snd captured))).

(** Lines 271 to 284. *)
Definition fetch_command : string :=
  "$types = @('Inbound','Outbound','AutoDial')" ++ PyStr.nl
  ++ "$all = @()" ++ PyStr.nl
  ++ "foreach ($t in $types) {" ++ PyStr.nl
  ++ "  try { $all += Get-Five9Campaign -Type $t } catch {}" ++ PyStr.nl
  ++ "}" ++ PyStr.nl
  ++ "$all | ForEach-Object {" ++ PyStr.nl
  ++ "  [pscustomobject]@{" ++ PyStr.nl
  ++ "    Name = $_.name" ++ PyStr.nl
  ++ "    State = $_.state.ToString()" ++ PyStr.nl
  ++ "    Type = $_.type.ToString()" ++ PyStr.nl
  ++ "  }" ++ PyStr.nl
  ++ "} | ConvertTo-Json".

(** Lines 401 to 414. *)
Definition refresh_command : string :=
  "$types = @('Inbound','Outbound','AutoDial')" ++ PyStr.nl
  ++ "$all = @()" ++ PyStr.nl
  ++ "foreach ($t in $types) {" ++ PyStr.nl
  ++ "  try { $all += Get-Five9Campaign -Type $t } catch {}" ++ PyStr.nl
  ++ "}" ++ PyStr.nl
  ++ "$all | ForEach-Object {" ++ PyStr.nl
  ++ "  [pscustomobject]@{" ++ PyStr.nl
  ++ "    Name = $_.name" ++ PyStr.nl
  ++ "    State = $_.state.ToString()" ++ PyStr.nl
  ++ "    Type = $_.type.ToString()" ++ PyStr.nl
  ++ "  }" ++ PyStr.nl
  ++ "} | ConvertTo-Json".


Definition action_command (status_choice : string) : string :=
  if String.eqb status_choice "Running" then "Stop-Five9Campaign -Force $true"
  else "Start-Five9Campaign".


(** Line 348, as the truth value line 360 takes of it. *)
Definition action_enabled (confirm_change : bool) (selected_campaigns : list value)
  (eff_user eff_pass : string) : bool :=
  confirm_change
  && match selected_campaigns with [] => false | _ :: _ => true end
  && PyStr.truthy eff_user && PyStr.truthy eff_pass.

Definition tab : string := String (ascii_of_nat 9) EmptyString.

(** Lines 370 to 383, for the text [dumped] that
    [json.dumps(selected_campaigns)] returned. *)
Definition ps_command (action : string) (dumped : string) : string :=
  campaigns_assignment dumped
  ++ "$results = @()" ++ PyStr.nl
  ++ "foreach ($campaign in $campaigns) {" ++ PyStr.nl
  ++ tab ++ "try {" ++ PyStr.nl
  ++ tab ++ tab ++ action ++ " -Name $campaign" ++ PyStr.nl
  ++ tab ++ tab
  ++ "$results += [pscustomobject]@{Name = $campaign; Success = $true; Error = $null}"
  ++ PyStr.nl
  ++ tab ++ "} catch {" ++ PyStr.nl
  ++ tab ++ tab
  ++ "$results += [pscustomobject]@{Name = $campaign; Success = $false; Error = $_.Exception.Message}"
  ++ PyStr.nl
  ++ tab ++ "}" ++ PyStr.nl
  ++ tab ++ "$results | Out-Null" ++ PyStr.nl
  ++ "}" ++ PyStr.nl
  ++ "$results | ConvertTo-Json -Depth 3" ++ PyStr.nl.

(** Lines 394 to 398: what is shown for the parsed results. *)
Definition success_notice (successes : list string) : list notice :=
  match successes with
  | [] => []
  | _ :: _ => [Success ("Updated campaigns: " ++ String.concat ", " successes)]
  end.

Definition failure_notice (failure_details : list (string * string)) : list notice :=
  match failure_details with
  | [] => []
  | _ :: _ =>
      [Error ("Failed campaigns:" ++ PyStr.nl
              ++ String.concat PyStr.nl
                   (map (fun kv => fst kv ++ ": " ++ snd kv) failure_details))]
  end.

Definition result_notices (results : action_results) : list notice :=
  let '(successes, failure_details) := results in
  (success_notice successes ++ failure_notice failure_details)%list.

(** What a click leaves behind: the session, the argument vectors of the
    processes it ran, and what it showed, or the exception that ended
    it. *)
Definition reaction : Type :=
  (session * list (list string) * outcome (list notice))%type.

Section Handlers.
Context {rt : PyRuntime}.

(** [json.dumps] on a list of names. *)
Variable json_dumps : list value -> string.

(** Lines 266 to 293: the button Get Campaign Status; [captured] is what
    the process it may run ends with. *)
Definition get_campaign_status_clicked (username password : string)
  (use_cached : bool) (captured : completed) (st : session) : reaction :=
  let '(eff_user, eff_pass) :=
    get_effective_credentials st username password use_cached in
  if negb (PyStr.truthy eff_user) || negb (PyStr.truthy eff_pass) then
    (st, [], Return [Error "Enter username and password before fetching campaigns."])
  else
    let '(argv, (stdout, stderr)) :=
      run_powershell_command eff_user eff_pass fetch_command captured in
    let st := set_last st stdout stderr in
    if PyStr.truthy stderr then
      (st, [argv], Return [Error "Failed to fetch campaigns. Check Debug Console."])
    else
      match parse_campaigns_json stdout with
      | Raise e => (st, [argv], Raise e)
      | Return df =>
          (set_campaigns st df, [argv],
           Return (if frame_empty df then [Warning "No campaigns returned."] else []))
      end.

(** Lines 366 to 398: the action itself, run for complete credentials
    and a selection that is not empty. *)
Definition perform_action (status_choice : string) (selected_campaigns : list value)
  (eff_user eff_pass : string) (captured : completed) (st : session) : reaction :=
  let safe_command :=
    ps_command (action_command status_choice) (json_dumps selected_campaigns) in
  let '(argv, (stdout, stderr)) :=
    run_powershell_command eff_user eff_pass safe_command captured in
  let st := set_last st stdout stderr in
  if PyStr.truthy stderr then
    (st, [argv], Return [Error "Action failed. Check Debug Console."])
  else
    match parse_action_results stdout with
    | Raise e => (st, [argv], Raise e)
    | Return results => (st, [argv], Return (result_notices results))
    end.

(** Lines 400 to 419: the refresh after the action. *)
Definition refresh_after (eff_user eff_pass : string) (captured : completed)
  (st : session) : session * list (list string) * outcome unit :=
  let '(argv, (refresh_stdout, refresh_stderr)) :=
    run_powershell_command eff_user eff_pass refresh_command captured in
  let st := set_last st refresh_stdout refresh_stderr in
  if negb (PyStr.truthy refresh_stderr) then
    match parse_campaigns_json refresh_stdout with
    | Raise e => (st, [argv], Raise e)
    | Return df => (set_campaigns st df, [argv], Return tt)
    end
  else (st, [argv], Return tt).

(** Lines 347 and 360 to 419: a click on the action button;
    [captured_action] and [captured_refresh] are what the two processes
    it may run end with.  The refresh of line 400 belongs to the branch
    of line 365: it follows the action, not the two messages of lines
    362 and 364. *)
Definition action_clicked (status_choice : string) (selected_campaigns : list value)
  (auto_refresh : bool) (username password : string) (use_cached : bool)
  (captured_action captured_refresh : completed) (st : session) : reaction :=
  let '(eff_user, eff_pass) :=
    get_effective_credentials st username password use_cached in
  if negb (PyStr.truthy eff_user) || negb (PyStr.truthy eff_pass) then
    (st, [], Return [Error "Enter username and password before running actions."])
  else
    match selected_campaigns with
    | [] => (st, [], Return [Warning "Select at least one campaign."])
    | _ :: _ =>
        let '(st1, runs1, shown) :=
          perform_action status_choice selected_campaigns eff_user eff_pass
                         captured_action st in
        match shown with
        | Raise e => (st1, runs1, Raise e)
        | Return notes =>
            if auto_refresh && PyStr.truthy eff_user && PyStr.truthy eff_pass then
              let '(st2, runs2, refreshed) :=
                refresh_after eff_user eff_pass captured_refresh st1 in
              match refreshed with
              | Raise e => (st2, (runs1 ++ runs2)%list, Raise e)
              | Return _ => (st2, (runs1 ++ runs2)%list, Return notes)
              end
            else (st1, runs1, Return notes)
        end
    end.

End Handlers.

End App.

(** [json.dumps] on a list of plain texts, integers, booleans and
    [null], for the examples: the elements between brackets, a comma and
    a blank between them. *)
Definition dumps_scalar (v : value) : string :=
  match v with
  | VStr s => String PyStr.dquote s ++ String PyStr.dquote EmptyString
  | VInt n => PyStr.of_Z n
  | VBool true => "true"
  | VBool false => "false"
  | _ => "null"
  end.

Definition dumps_names (names : list value) : string :=
  "[" ++ String.concat ", " (map dumps_scalar names) ++ "]".

(** ** Further words for the statements *)

(** A session for the examples: one campaign loaded, credentials
    cached. *)
Definition demo_session : App.session :=
  {| App.campaigns_df :=
       [{| Name := VStr "Sales"; State := "RUNNING"; Type_ := "Outbound" |}];
     App.last_stdout := EmptyString; App.last_stderr := EmptyString;
     App.cached_user := "ann"; App.cached_pass := "s3cret" |}.

(** The three parts of what a click leaves behind. *)
Definition session_after (r : App.reaction) : App.session := fst (fst r).
Definition processes_run (r : App.reaction) : list (list string) := snd (fst r).
Definition shown (r : App.reaction) : outcome (list notice) := snd r.

(** The value a record holds for a field, looked up without regard to
    the casing of its keys: the one of the last key that reads [key]
    once lowered. *)
Definition last_field (key : string) (rec : list (string * value)) : option value :=
  fold_left (fun found kv =>
               if String.eqb (PyStr.lower (fst kv)) key then Some (snd kv) else found)
            rec None.

(** The field found, or the empty text of lines 140 to 142. *)
Definition field_or_blank (found : option value) : value :=
  match found with Some v => v | None => VStr EmptyString end.

(** The number of single quotes of a text. *)
Fixpoint count_quotes (s : string) : nat :=
  match s with
  | EmptyString => 0
  | String c rest =>
      (if Ascii.eqb c PyStr.squote then 1 else 0) + count_quotes rest
  end.

(** The label a table gives a code. *)
Definition table_label (table : list (Z * string)) (code : Z) : option string :=
  match find (fun entry => Z.eqb (fst entry) code) table with
  | Some entry => Some (snd entry)
  | None => None
  end.

(** * Properties *)

(** ** Escaping *)

Lemma or_else_empty (value : string) : PyStr.or_else value EmptyString = value.
Proof. destruct value; reflexivity. Qed.

Lemma ps_escape_replace (value : string) :
  ps_escape value = PyStr.replace PyStr.squote "''" value.
Proof. unfold ps_escape. now rewrite or_else_empty. Qed.

Lemma read_pair (s : string) :
  ps_read_literal (String PyStr.squote (String PyStr.squote s))
  = match ps_read_literal s with
    | Some (v, after) => Some (String PyStr.squote v, after)
    | None => None
    end.
Proof. reflexivity. Qed.

(** Reading an escaped text up to the closing quote gives the text back
    and stops at that quote. *)
Lemma read_escaped (value rest : string) :
  no_leading_quote rest = true ->
  ps_read_literal (PyStr.replace PyStr.squote "''" value ++ String PyStr.squote rest)
  = Some (value, rest).
Proof.
  intros Hrest. induction value as [|c value IH].
  - simpl. destruct rest as [|c' rest']; [reflexivity|].
    simpl in Hrest. destruct (Ascii.eqb c' PyStr.squote); [discriminate|reflexivity].
  - cbn [PyStr.replace]. destruct (Ascii.eqb c PyStr.squote) eqn:Hc.
    + apply Ascii.eqb_eq in Hc. subst c.
      change (ps_read_literal
                (String PyStr.squote (String PyStr.squote
                   (PyStr.replace PyStr.squote "''" value ++ String PyStr.squote rest)))
              = Some (String PyStr.squote value, rest)).
      rewrite read_pair. now rewrite IH.
    + cbn [append ps_read_literal]. rewrite Hc. now rewrite IH.
Qed.

(** Whatever follows the closing quote, the reader does not stop inside
    the escaped text: what it reads, if the literal ends at all, begins
    with the whole value. *)
Lemma escaped_never_ends_early (value rest : string) :
  match ps_read_literal
          (PyStr.replace PyStr.squote "''" value ++ String PyStr.squote rest) with
  | Some (read, _) => exists more, read = value ++ more
  | None => True
  end.
Proof.
  induction value as [|c value IH].
  - destruct (ps_read_literal _) as [[read after]|]; [|exact I]. now exists read.
  - cbn [PyStr.replace]. destruct (Ascii.eqb c PyStr.squote) eqn:Hc.
    + apply Ascii.eqb_eq in Hc. subst c.
      change (match ps_read_literal
                      (String PyStr.squote (String PyStr.squote
                         (PyStr.replace PyStr.squote "''" value
                          ++ String PyStr.squote rest))) with
              | Some (read, _) => exists more, read = String PyStr.squote value ++ more
              | None => True
              end).
      rewrite read_pair.
      destruct (ps_read_literal _) as [[read after]|]; [|exact I].
      destruct IH as [more ->]. now exists more.
    + cbn [append ps_read_literal]. rewrite Hc.
      destruct (ps_read_literal _) as [[read after]|]; [|exact I].
      destruct IH as [more ->]. now exists more.
Qed.

Lemma append_assoc (a b c : string) : (a ++ b) ++ c = a ++ (b ++ c).
Proof. induction a as [|x a IH]; simpl; [reflexivity|now rewrite IH]. Qed.

(** C1. For every value, the text [ps_escape] returns, placed between
    single quotes, is read back by the interpreter's rule for
    single-quoted literals as exactly that value, and the literal ends at
    the quote the template put behind it, not earlier: what the reader
    leaves is exactly the text [rest] of the template. *)
Theorem ps_escape_round_trip (value rest : string) :
  no_leading_quote rest = true ->
  ps_read_literal (ps_escape value ++ "'" ++ rest) = Some (value, rest).
Proof.
  intros Hrest. rewrite ps_escape_replace.
  change ("'" ++ rest) with (String PyStr.squote rest).
  now apply read_escaped.
Qed.

Lemma ps_escape_round_trip_witness :
  no_leading_quote " -AsPlainText -Force" = true
  /\ ps_escape "pa'ss''" = "pa''ss''''"
  /\ ps_read_literal (ps_escape "pa'ss''" ++ "'" ++ " -AsPlainText -Force")
     = Some ("pa'ss''", " -AsPlainText -Force").
Proof.
  split; [reflexivity|]. split; [reflexivity|].
  apply (ps_escape_round_trip "pa'ss''" " -AsPlainText -Force"). reflexivity.
Defined.

(** The same in the script of [run_powershell_command]: from the quote
    that opens the password the reader gets the password, and from the
    quote that opens the user name the user name, whatever the two
    texts hold. *)
Lemma ps_script_reads_password (username password command : string) :
  exists after,
    ps_script username password command = script_head ++ after
    /\ ps_read_literal after
       = Some (password,
               " -AsPlainText -Force" ++ PyStr.nl
               ++ "$creds = New-Object System.Management.Automation.PSCredential ('"
               ++ ps_escape username ++ script_after_user ++ command ++ PyStr.nl).
Proof.
  eexists. split; [reflexivity|].
  rewrite ps_escape_replace.
  unfold script_after_password. rewrite !append_assoc.
  change ("' -AsPlainText -Force" ++ ?x) with (String PyStr.squote (" -AsPlainText -Force" ++ x)).
  apply read_escaped. reflexivity.
Qed.

Lemma ps_script_reads_username (username password command : string) :
  exists before after,
    ps_script username password command = before ++ after
    /\ before = script_head ++ ps_escape password ++ script_after_password
    /\ ps_read_literal after
       = Some (username,
               ", $secpasswd)" ++ PyStr.nl
               ++ "Connect-Five9AdminWebService -Credential $creds" ++ PyStr.nl
               ++ command ++ PyStr.nl).
Proof.
  exists (script_head ++ ps_escape password ++ script_after_password).
  eexists. split; [|split; [reflexivity|]].
  - unfold ps_script. cbv zeta. rewrite !append_assoc. reflexivity.
  - rewrite ps_escape_replace. unfold script_after_user. rewrite !append_assoc.
    change ("', $secpasswd)" ++ ?x) with (String PyStr.squote (", $secpasswd)" ++ x)).
    apply read_escaped. reflexivity.
Qed.

(** And in the bulk action: the literal handed to [ConvertFrom-Json] is
    the text [json.dumps] returned. *)
Lemma campaigns_assignment_reads_json (dumped : string) :
  exists after,
    campaigns_assignment dumped
    = PyStr.nl ++ "$campaigns = ConvertFrom-Json '" ++ after
    /\ ps_read_literal after = Some (dumped, PyStr.nl).
Proof.
  eexists. split; [reflexivity|].
  rewrite ps_escape_replace.
  change ("'" ++ PyStr.nl) with (String PyStr.squote PyStr.nl).
  apply read_escaped. reflexivity.
Qed.

(** ** Dictionaries *)

Section DictFacts.
Context {V : Type}.

Lemma get_set_same (d : list (string * V)) (key : string) (v : V) :
  Dict.get (Dict.set d key v) key = Some v.
Proof.
  induction d as [|[k w] d IH]; simpl.
  - now rewrite String.eqb_refl.
  - destruct (String.eqb k key) eqn:Hk; simpl; rewrite Hk; [reflexivity|exact IH].
Qed.

Lemma get_set_other (d : list (string * V)) (key key' : string) (v : V) :
  key <> key' -> Dict.get (Dict.set d key v) key' = Dict.get d key'.
Proof.
  intros Hne. induction d as [|[k w] d IH]; simpl.
  - destruct (String.eqb key key') eqn:Hk; [|reflexivity].
    apply String.eqb_eq in Hk. contradiction.
  - destruct (String.eqb k key) eqn:Hk; simpl.
    + apply String.eqb_eq in Hk. subst k.
      destruct (String.eqb key key') eqn:Hk'; [|reflexivity].
      apply String.eqb_eq in Hk'. contradiction.
    + now rewrite IH.
Qed.

Lemma keys_set (d : list (string * V)) (key key' : string) (v : V) :
  In key' (Dict.keys (Dict.set d key v)) <-> key' = key \/ In key' (Dict.keys d).
Proof.
  unfold Dict.keys. induction d as [|[k w] d IH]; simpl.
  - intuition.
  - destruct (String.eqb k key) eqn:Hk; simpl.
    + apply String.eqb_eq in Hk. subst k. intuition.
    + rewrite IH. intuition.
Qed.

Lemma get_none_keys (d : list (string * V)) (key : string) :
  ~ In key (Dict.keys d) -> Dict.get d key = None.
Proof.
  unfold Dict.keys. induction d as [|[k w] d IH]; simpl; [reflexivity|].
  intros Hnot. destruct (String.eqb k key) eqn:Hk.
  - apply String.eqb_eq in Hk. tauto.
  - apply IH. tauto.
Qed.

End DictFacts.

(** ** The loops of the two parsers *)

Section Loops.
Context {rt : PyRuntime}.

Lemma normalize_loop_objects (recs : list (list (string * value)))
  (normalized : list campaign) :
  normalize_loop (map VDict recs) normalized
  = Return (normalized ++ map normalize_record recs)%list.
Proof.
  revert normalized. induction recs as [|r recs IH]; intros normalized; simpl.
  - now rewrite app_nil_r.
  - rewrite IH. now rewrite <- app_assoc.
Qed.

Lemma normalize_loop_returns (records : list value) (normalized : list campaign) :
  forallb is_dict records = true ->
  exists rows, normalize_loop records normalized = Return rows.
Proof.
  revert normalized. induction records as [|v records IH]; intros normalized H; simpl.
  - now eexists.
  - simpl in H. apply andb_prop in H as [Hv Hrest].
    destruct v; try discriminate. simpl. now apply IH.
Qed.

Lemma normalize_loop_raises (records : list value) (normalized : list campaign) :
  forallb is_dict records = false ->
  normalize_loop records normalized = Raise (AttributeError "items").
Proof.
  revert normalized. induction records as [|v records IH]; intros normalized H; simpl.
  - discriminate.
  - simpl in H. destruct v; try reflexivity. simpl in *. now apply IH.
Qed.

Lemma classify_loop_returns (records : list value) (acc : action_results) :
  forallb is_dict records = true ->
  exists results, classify_loop records acc = Return results.
Proof.
  revert acc. induction records as [|v records IH]; intros acc H; simpl.
  - now eexists.
  - simpl in H. apply andb_prop in H as [Hv Hrest].
    destruct v; try discriminate. simpl. now apply IH.
Qed.

Lemma classify_loop_raises (records : list value) (acc : action_results) :
  forallb is_dict records = false ->
  classify_loop records acc = Raise (AttributeError "get").
Proof.
  revert acc. induction records as [|v records IH]; intros acc H; simpl.
  - discriminate.
  - simpl in H. destruct v; try reflexivity. simpl in *. now apply IH.
Qed.

(** The body of the action loop, in the specification's words. *)
Lemma record_name_spec (record : list (string * value)) :
  py_str (Dict.get_default record "Name" (VStr "(unknown)")) = spec_name record.
Proof.
  unfold spec_name, Dict.get_default. now destruct (Dict.get record "Name").
Qed.

Lemma record_success_spec (record : list (string * value)) :
  truthy (Dict.get_default record "Success" VNone) = spec_success record.
Proof.
  unfold spec_success, Dict.get_default. now destruct (Dict.get record "Success").
Qed.

Lemma record_error_spec (record : list (string * value)) :
  py_str (value_or (Dict.get_default record "Error" VNone) (VStr "Unknown error"))
  = spec_error record.
Proof.
  unfold spec_error, Dict.get_default, value_or.
  destruct (Dict.get record "Error") as [v|]; [|reflexivity].
  now destruct (truthy v).
Qed.

Lemma classify_record_spec (record : list (string * value))
  (successes : list string) (failures : list (string * string)) :
  classify_record record (successes, failures)
  = if spec_success record
    then ((successes ++ [spec_name record])%list, failures)
    else (successes, Dict.set failures (spec_name record) (spec_error record)).
Proof.
  unfold classify_record.
  now rewrite record_name_spec, record_success_spec, record_error_spec.
Qed.


End Loops.

(** ** Input that is empty or not JSON *)

Lemma truthy_nonempty (s : string) : s <> EmptyString -> PyStr.truthy s = true.
Proof. destruct s; [congruence|reflexivity]. Qed.

(** C3, amended. For every input that is empty, or that [json.loads]
    refuses with [JSONDecodeError], [parse_campaigns_json] returns the
    table with no row; it returns, it does not raise. *)
Theorem parse_campaigns_json_invalid_input `{rt : PyRuntime} (raw_json : string) :
  raw_json = EmptyString \/ json_loads raw_json = Raise JSONDecodeError ->
  parse_campaigns_json raw_json = Return empty_frame.
Proof.
  intros [Hempty | Hbad]; unfold parse_campaigns_json.
  - subst raw_json. reflexivity.
  - destruct (PyStr.truthy raw_json); [|reflexivity]. cbn [negb]. now rewrite Hbad.
Qed.

Lemma parse_campaigns_json_invalid_input_witness :
  parse_campaigns_json (rt := Ref.runtime) EmptyString = Return empty_frame
  /\ Ref.loads "not json" = Raise JSONDecodeError
  /\ parse_campaigns_json (rt := Ref.runtime) "not json" = Return empty_frame.
Proof.
  split; [|split].
  - apply (parse_campaigns_json_invalid_input (rt := Ref.runtime) EmptyString).
    left. reflexivity.
  - reflexivity.
  - apply (parse_campaigns_json_invalid_input (rt := Ref.runtime) "not json").
    right. reflexivity.
Defined.

(** C3, as the claim states it, fails at texts that are no JSON and
    that [json.loads] reads all the same.  The word [NaN] is none of
    JSON's values, so a document holding it is not syntactically valid
    JSON; [json.loads] reads it as a float.  The object then gives a row
    (the result is not empty), and the array holds an element that is no
    object (the parser raises). *)
Lemma parse_campaigns_json_reads_nan :
  Ref.strict_loads (PyStr.jtext "{`Name`:NaN}") = Raise JSONDecodeError
  /\ Ref.loads (PyStr.jtext "{`Name`:NaN}")
     = Return (VDict [("Name", VFloat nan)])
  /\ parse_campaigns_json (rt := Ref.runtime) (PyStr.jtext "{`Name`:NaN}")
     = Return [{| Name := VFloat nan; State := EmptyString;
                  Type_ := EmptyString |}]
  /\ Ref.strict_loads "[NaN]" = Raise JSONDecodeError
  /\ Ref.loads "[NaN]" = Return (VList [VFloat nan])
  /\ parse_campaigns_json (rt := Ref.runtime) "[NaN]"
     = Raise (AttributeError "items").
Proof. repeat split. Qed.

(** C6, as the claim states it, fails at the empty text: it is no JSON
    document, and [parse_action_results] answers it before decoding, with
    no failure entry at all (line 188).  It fails as well at texts that
    are no JSON and that [json.loads] reads all the same: the word [NaN]
    is read as a float, which holds no record, and the result has no
    failure entry; the array holding it makes the parser raise. *)
Lemma parse_action_results_empty_text :
  Ref.loads EmptyString = Raise JSONDecodeError
  /\ parse_action_results (rt := Ref.runtime) EmptyString = Return ([], [])
  /\ Ref.strict_loads "NaN" = Raise JSONDecodeError
  /\ Ref.loads "NaN" = Return (VFloat nan)
  /\ parse_action_results (rt := Ref.runtime) "NaN" = Return ([], [])
  /\ Ref.strict_loads "[NaN]" = Raise JSONDecodeError
  /\ parse_action_results (rt := Ref.runtime) "[NaN]"
     = Raise (AttributeError "get").
Proof. repeat split. Qed.

(** C6, amended. For every input that is not empty and that [json.loads]
    refuses with [JSONDecodeError], [parse_action_results] returns no
    success and exactly one failure, keyed (unknown), whose message is
    the non-empty text of line 194; for the empty text it returns no
    success and no failure, whatever the decoder is. *)
Theorem parse_action_results_invalid_input `{rt : PyRuntime} (raw_json : string) :
  raw_json <> EmptyString ->
  json_loads raw_json = Raise JSONDecodeError ->
  parse_action_results raw_json
  = Return ([], [("(unknown)", "Failed to parse PowerShell result.")])
  /\ PyStr.truthy "Failed to parse PowerShell result." = true
  /\ parse_action_results EmptyString = Return ([], []).
Proof.
  intros Hne Hbad. split; [|split; reflexivity].
  unfold parse_action_results.
  rewrite (truthy_nonempty _ Hne). cbn [negb]. now rewrite Hbad.
Qed.

Lemma parse_action_results_invalid_input_witness :
  Ref.loads "garbage" = Raise JSONDecodeError
  /\ parse_action_results (rt := Ref.runtime) "garbage"
     = Return ([], [("(unknown)", "Failed to parse PowerShell result.")]).
Proof.
  split; [reflexivity|].
  apply (parse_action_results_invalid_input (rt := Ref.runtime) "garbage").
  - discriminate.
  - reflexivity.
Defined.

(** ** Documents that are valid JSON and hold something else than records *)

Lemma forallb_is_dict (l : list value) :
  forallb is_dict l = true <-> exists recs, l = map VDict recs.
Proof.
  split.
  - induction l as [|v l IH]; intros H.
    + now exists [].
    + simpl in H. apply andb_prop in H as [Hv Hl].
      destruct (IH Hl) as [recs ->].
      destruct v; try discriminate. now exists (d :: recs).
  - intros [recs ->]. induction recs as [|r recs IH]; [reflexivity|exact IH].
Qed.

Lemma only_objects_cases (parsed : value) :
  only_objects parsed = true
  <-> is_dict parsed = true \/ is_scalar parsed = true
      \/ exists recs, parsed = VList (map VDict recs).
Proof.
  unfold only_objects.
  destruct parsed; cbn [records_of forallb is_dict is_scalar andb];
    try (split; [intros _; auto | reflexivity]).
  split.
  - intros H. apply forallb_is_dict in H as [recs ->]. right. right. now exists recs.
  - intros [H | [H | [recs H]]]; try discriminate.
    injection H as ->. apply forallb_is_dict. now exists recs.
Qed.

(** C9, as the claim states it, fails in its last part: a document that
    decodes to a number is neither an object nor an array of objects,
    and both parsers return on it (lines 134 and 200 give it no
    record). *)
Lemma parsers_return_on_scalar :
  Ref.loads "5" = Return (VInt 5)
  /\ is_dict (VInt 5) = false
  /\ parse_campaigns_json (rt := Ref.runtime) "5" = Return empty_frame
  /\ parse_action_results (rt := Ref.runtime) "5" = Return ([], []).
Proof. repeat split. Qed.

(** C9, amended. The two parsers are not total: on a document that
    decodes to an array with an element that is no object (such as
    [[1,2]]) each raises [AttributeError].  On a non-empty document that
    decodes, each returns exactly when every record looked at is an
    object, that is, when the decoded value is an object, an array of
    objects, or a number, text, boolean or [null] (which holds no
    record). *)
Theorem parsers_return_iff_only_objects `{rt : PyRuntime}
  (raw_json : string) (parsed : value) :
  raw_json <> EmptyString ->
  json_loads raw_json = Return parsed ->
  returns (parse_campaigns_json raw_json) = only_objects parsed
  /\ returns (parse_action_results raw_json) = only_objects parsed
  /\ (only_objects parsed = false ->
      parse_campaigns_json raw_json = Raise (AttributeError "items")
      /\ parse_action_results raw_json = Raise (AttributeError "get"))
  /\ (only_objects parsed = true
      <-> is_dict parsed = true \/ is_scalar parsed = true
          \/ exists recs, parsed = VList (map VDict recs)).
Proof.
  intros Hne Hparsed.
  unfold parse_campaigns_json, parse_action_results.
  rewrite (truthy_nonempty _ Hne), Hparsed. cbn [negb].
  unfold only_objects at 1 2 3.
  destruct (forallb is_dict (records_of parsed)) eqn:Hall.
  - destruct (normalize_loop_returns _ [] Hall) as [rows Hrows].
    destruct (classify_loop_returns _ ([], []) Hall) as [results Hresults].
    rewrite Hrows, Hresults. cbn [bind].
    split; [now destruct (frame_empty (from_records rows))|].
    split; [reflexivity|].
    split; [discriminate|apply only_objects_cases].
  - rewrite (normalize_loop_raises _ [] Hall), (classify_loop_raises _ ([], []) Hall).
    cbn [bind returns].
    split; [reflexivity|]. split; [reflexivity|].
    split; [now split|apply only_objects_cases].
Qed.

Lemma parsers_return_iff_only_objects_witness :
  Ref.loads "[1,2]" = Return (VList [VInt 1; VInt 2])
  /\ parse_campaigns_json (rt := Ref.runtime) "[1,2]" = Raise (AttributeError "items")
  /\ parse_action_results (rt := Ref.runtime) "[1,2]" = Raise (AttributeError "get").
Proof.
  split; [reflexivity|].
  apply (parsers_return_iff_only_objects (rt := Ref.runtime)
           "[1,2]" (VList [VInt 1; VInt 2])).
  - discriminate.
  - reflexivity.
  - reflexivity.
Defined.

(** ** State and type codes *)

Section Codes.
Context {rt : PyRuntime}.

(** The two tables, entry by entry. *)
Lemma state_codes_in_table :
  label_of STATE_MAP (VInt 0) = "NotRunning"
  /\ label_of STATE_MAP (VInt 1) = "Starting"
  /\ label_of STATE_MAP (VInt 2) = "Running"
  /\ label_of STATE_MAP (VInt 3) = "Stopping".
Proof. repeat split. Qed.

Lemma type_codes_in_table :
  label_of TYPE_MAP (VInt 0) = "Inbound"
  /\ label_of TYPE_MAP (VInt 1) = "Outbound"
  /\ label_of TYPE_MAP (VInt 2) = "AutoDial".
Proof. repeat split. Qed.

Lemma table_get_absent (table : list (Z * string)) (code : Z) (default : string) :
  (forall entry, In entry table -> fst entry <> code) ->
  table_get table code default = default.
Proof.
  induction table as [|[k label] table IH]; intros Habsent; simpl; [reflexivity|].
  destruct (Z.eqb k code) eqn:Hk.
  - apply Z.eqb_eq in Hk. exfalso. apply (Habsent (k, label)); [now left|exact Hk].
  - apply IH. intros entry Hin. apply Habsent. now right.
Qed.

(** An integer outside the table becomes its decimal text. *)
Lemma state_code_outside_table (n : Z) :
  (n < 0 \/ 3 < n)%Z -> label_of STATE_MAP (VInt n) = PyStr.of_Z n.
Proof.
  intros Hn. unfold label_of. cbn [as_int py_str py_repr].
  apply table_get_absent. intros entry Hin. simpl in Hin.
  destruct Hin as [<- | [<- | [<- | [<- | []]]]]; simpl; lia.
Qed.

Lemma type_code_outside_table (n : Z) :
  (n < 0 \/ 2 < n)%Z -> label_of TYPE_MAP (VInt n) = PyStr.of_Z n.
Proof.
  intros Hn. unfold label_of. cbn [as_int py_str py_repr].
  apply table_get_absent. intros entry Hin. simpl in Hin.
  destruct Hin as [<- | [<- | [<- | []]]]; simpl; lia.
Qed.

(** A text stays as it is; [null], a float, an array and an object
    become their text. *)
Lemma label_of_text (table : list (Z * string)) (s : string) :
  label_of table (VStr s) = s.
Proof. reflexivity. Qed.

Lemma label_of_not_int (table : list (Z * string)) (raw : value) :
  as_int raw = None -> label_of table raw = py_str raw.
Proof. unfold label_of. now intros ->. Qed.

(** A boolean counts as an [int] at lines 144 and 149 and is looked up in
    the table as 1 or 0; its text would be True or False. *)
Lemma label_of_boolean :
  label_of STATE_MAP (VBool true) = "Starting"
  /\ label_of STATE_MAP (VBool false) = "NotRunning"
  /\ label_of TYPE_MAP (VBool true) = "Outbound"
  /\ label_of TYPE_MAP (VBool false) = "Inbound"
  /\ py_str (VBool true) = "True"
  /\ py_str (VBool false) = "False".
Proof. repeat split. Qed.

(** Each row takes its state and type from the fields found under the
    lower-case keys. *)
Lemma normalize_record_fields (rec : list (string * value)) :
  State (normalize_record rec)
  = label_of STATE_MAP (Dict.get_default (lower_keys rec) "state" (VStr EmptyString))
  /\ Type_ (normalize_record rec)
     = label_of TYPE_MAP (Dict.get_default (lower_keys rec) "type" (VStr EmptyString))
  /\ Name (normalize_record rec)
     = Dict.get_default (lower_keys rec) "name" (VStr EmptyString).
Proof. repeat split. Qed.

End Codes.

(** The specification's example, and a code outside the tables. *)
Lemma parse_campaigns_json_example :
  parse_campaigns_json (rt := Ref.runtime)
    (PyStr.jtext "{`Name`:`A`,`State`:2,`Type`:0}")
  = Return [{| Name := VStr "A"; State := "Running"; Type_ := "Inbound" |}]
  /\ parse_campaigns_json (rt := Ref.runtime)
       (PyStr.jtext "[{`Name`:`B`,`State`:99,`Type`:`Outbound`}]")
     = Return [{| Name := VStr "B"; State := "99"; Type_ := "Outbound" |}].
Proof. split; reflexivity. Qed.

(** C4. At a record whose state and type are booleans the code departs
    from the claim: [true] and [false] are values that are not numbers,
    the claim has them pass through as the texts True and False, and the
    code returns the labels of the codes 1 and 0. *)
Theorem parse_campaigns_json_boolean_codes :
  Ref.loads (PyStr.jtext "{`Name`:`A`,`State`:true,`Type`:false}")
  = Return (VDict [("Name", VStr "A"); ("State", VBool true); ("Type", VBool false)])
  /\ parse_campaigns_json (rt := Ref.runtime)
       (PyStr.jtext "{`Name`:`A`,`State`:true,`Type`:false}")
     = Return [{| Name := VStr "A"; State := "Starting"; Type_ := "Inbound" |}]
  /\ py_str (rt := Ref.runtime) (VBool true) = "True"
  /\ py_str (rt := Ref.runtime) (VBool false) = "False".
Proof. repeat split. Qed.

(** ** Action results *)

Section Actions.
Context {rt : PyRuntime}.




Lemma no_exact_field_get (record : list (string * value)) :
  no_exact_field record = true ->
  Dict.get record "Name" = None
  /\ Dict.get record "Success" = None
  /\ Dict.get record "Error" = None.
Proof.
  unfold no_exact_field. rewrite forallb_forall. intros Hkeys.
  repeat split; apply get_none_keys; intros Hin; apply Hkeys in Hin; discriminate.
Qed.

Lemma lower_keys_into_respelled (respell : string -> string)
  (rec acc : list (string * value)) :
  (forall k, PyStr.lower (respell k) = PyStr.lower k) ->
  lower_keys_into acc (respelled respell rec) = lower_keys_into acc rec.
Proof.
  intros Hsame. revert acc.
  induction rec as [|[k v] rec IH]; intros acc; [reflexivity|].
  cbn [respelled map lower_keys_into fst snd]. rewrite Hsame. apply IH.
Qed.

(** C10. [parse_action_results] looks its three fields up under the exact
    keys Name, Success and Error: a record that has none of these keys,
    because it spells the fields in another casing, is classified as a
    failure keyed (unknown) with the error Unknown error.
    [parse_campaigns_json] looks its fields up among the lower-cased
    keys: spelling the keys of a record in another casing leaves its row
    unchanged. *)
Theorem action_fields_are_case_sensitive (record : list (string * value)) :
  no_exact_field record = true ->
  (forall successes failures,
     classify_record record (successes, failures)
     = (successes, Dict.set failures "(unknown)" "Unknown error"))
  /\ (forall raw_json,
        raw_json <> EmptyString ->
        json_loads raw_json = Return (VDict record) ->
        parse_action_results raw_json
        = Return ([], [("(unknown)", "Unknown error")]))
  /\ (forall respell,
        (forall k, PyStr.lower (respell k) = PyStr.lower k) ->
        normalize_record (respelled respell record) = normalize_record record).
Proof.
  intros Hnone. apply no_exact_field_get in Hnone as [Hname [Hsuccess Herror]].
  assert (Hbody : forall successes failures,
             classify_record record (successes, failures)
             = (successes, Dict.set failures "(unknown)" "Unknown error")).
  { intros successes failures. rewrite classify_record_spec.
    unfold spec_success, spec_name, spec_error.
    now rewrite Hname, Hsuccess, Herror. }
  split; [exact Hbody|split].
  - intros raw_json Hne Hparsed. unfold parse_action_results.
    rewrite (truthy_nonempty _ Hne), Hparsed.
    cbn [negb records_of classify_loop getter bind]. now rewrite Hbody.
  - intros respell Hsame. unfold normalize_record, lower_keys.
    now rewrite lower_keys_into_respelled.
Qed.

End Actions.


Lemma action_fields_are_case_sensitive_witness :
  no_exact_field [("name", VStr "A"); ("success", VBool true)] = true
  /\ parse_action_results (rt := Ref.runtime)
       (PyStr.jtext "{`name`:`A`,`success`:true}")
     = Return ([], [("(unknown)", "Unknown error")])
  /\ parse_campaigns_json (rt := Ref.runtime)
       (PyStr.jtext "{`NAME`:`A`,`state`:2,`tYpE`:0}")
     = Return [{| Name := VStr "A"; State := "Running"; Type_ := "Inbound" |}].
Proof.
  split; [reflexivity|]. split; [|reflexivity].
  apply (proj1 (proj2 (action_fields_are_case_sensitive (rt := Ref.runtime)
                         [("name", VStr "A"); ("success", VBool true)] eq_refl))).
  - discriminate.
  - reflexivity.
Defined.

(** ** The install job *)

(** C7. From every state of the scratch directory, the loop of Clear
    Install Status leaves no lock, no stdout and no stderr file, and
    [get_install_status] then returns running false, stdout and stderr
    empty, done false.  The same holds after a click on the button,
    which is only drawn while the job is running or done: when it is not
    drawn the directory already is in that state. *)
Theorem clear_returns_to_idle (fs : files) :
  content (clear_install_status fs) _INSTALL_LOCK = None
  /\ content (clear_install_status fs) _INSTALL_STDOUT = None
  /\ content (clear_install_status fs) _INSTALL_STDERR = None
  /\ content (clear_install_status fs) script_file = content fs script_file
  /\ get_install_status (clear_install_status fs) = idle_status
  /\ get_install_status (fst (clear_clicked fs)) = idle_status.
Proof.
  destruct fs as [[out|] [err|] [lock|] script]; repeat split.
Qed.

Section JobFacts.
Context {rt : PyRuntime}.

Lemma install_clicked_running (fs : files) :
  running (get_install_status fs) = true ->
  install_clicked fs = (fs, [], Warning "Install already in progress.").
Proof. unfold install_clicked. now intros ->. Qed.

Lemma install_clicked_between_running (checked now : files) :
  running (get_install_status checked) = true ->
  install_clicked_between checked now
  = (now, [], Warning "Install already in progress.").
Proof. unfold install_clicked_between. now intros ->. Qed.

(** C2, amended. Whenever the status the handler reads at line 236
    reports running, the start is rejected: the handler shows the
    warning, passes nothing to [subprocess.run] and leaves every file of
    the scratch directory as it is.  A handler that runs uninterrupted
    therefore starts an install only on a directory without lock.  The
    check is advisory: a handler that read a status without lock starts,
    whatever the directory holds by the time line 240 runs. *)
Theorem install_rejected_while_running :
  (forall checked now,
     running (get_install_status checked) = true ->
     install_clicked_between checked now
     = (now, [], Warning "Install already in progress."))
  /\ (forall fs,
        running (get_install_status fs) = true ->
        install_clicked fs = (fs, [], Warning "Install already in progress."))
  /\ (forall fs,
        snd (fst (install_clicked fs)) <> [] ->
        running (get_install_status fs) = false)
  /\ (forall checked now,
        running (get_install_status checked) = false ->
        fst (fst (install_clicked_between checked now))
        = fst (start_install_detached install_command now)
        /\ snd (fst (install_clicked_between checked now))
           = [ps_base_args launch_cmd]).
Proof.
  split; [exact install_clicked_between_running|].
  split; [exact install_clicked_running|]. split.
  - intros fs Hstarted.
    destruct (running (get_install_status fs)) eqn:Hrun; [|reflexivity].
    rewrite (install_clicked_running _ Hrun) in Hstarted. now contradiction Hstarted.
  - intros checked now Hidle. unfold install_clicked_between. rewrite Hidle.
    split; reflexivity.
Qed.

End JobFacts.

(** A directory in which the lock exists, as [start_install_detached]
    leaves it. *)
Lemma install_rejected_while_running_witness :
  let fs := {| stdout_txt := Some EmptyString; stderr_txt := Some EmptyString;
               running_lock := Some "running"; install_script_ps1 := None |} in
  running (get_install_status fs) = true
  /\ install_clicked (rt := Ref.runtime) fs
     = (fs, [], Warning "Install already in progress.").
Proof.
  cbv zeta. split; [reflexivity|].
  apply (proj1 (proj2 (install_rejected_while_running (rt := Ref.runtime)))).
  reflexivity.
Defined.

(** C2, as the claim states it, fails when two sessions click Install
    and both handlers read the status, on the directory without lock,
    before either starts.  The first start writes the lock; the second
    start then runs on a directory whose status reports running and is
    not rejected: it passes a second launch to [subprocess.run]. *)
Lemma late_start_ignores_lock :
  let after_first := fst (fst (install_clicked (rt := Ref.runtime) no_files)) in
  running (get_install_status no_files) = false
  /\ snd (fst (install_clicked (rt := Ref.runtime) no_files))
     = [ps_base_args (launch_cmd (rt := Ref.runtime))]
  /\ running (get_install_status after_first) = true
  /\ snd (fst (install_clicked_between (rt := Ref.runtime) no_files after_first))
     = [ps_base_args (launch_cmd (rt := Ref.runtime))].
Proof. repeat split. Qed.

(** ** The campaign filter *)

Lemma select_mask (keep : campaign -> bool) (df : DataFrame) :
  select df (map keep df) = filter keep df.
Proof.
  induction df as [|row df IH]; [reflexivity|].
  cbn [map select filter]. now rewrite IH.
Qed.

Lemma select_inverted_mask (keep : campaign -> bool) (df : DataFrame) :
  select df (invert (map keep df)) = filter (fun row => negb (keep row)) df.
Proof.
  induction df as [|row df IH]; [reflexivity|].
  cbn [map invert select filter]. fold (invert (map keep df)). rewrite IH.
  now destruct (keep row).
Qed.

Lemma filter_split (keep : campaign -> bool) (df : DataFrame) :
  Permutation (filter keep df ++ filter (fun row => negb (keep row)) df) df.
Proof.
  induction df as [|row df IH]; [constructor|].
  cbn [filter]. destruct (keep row); cbn [negb app].
  - now constructor.
  - apply Permutation_sym, Permutation_cons_app, Permutation_sym. exact IH.
Qed.

Lemma filtered_df_running (df : DataFrame) :
  filtered_df choice_running df
  = filter (fun row => String.eqb (PyStr.lower (State row)) "running") df.
Proof.
  unfold filtered_df, running_mask. destruct df as [|row df]; [reflexivity|].
  cbn [frame_empty negb]. change (String.eqb choice_running "Running") with true.
  cbv iota. apply select_mask.
Qed.

Lemma filtered_df_otherwise (df : DataFrame) :
  filtered_df choice_otherwise df
  = filter (fun row => negb (String.eqb (PyStr.lower (State row)) "running")) df.
Proof.
  unfold filtered_df, running_mask. destruct df as [|row df]; [reflexivity|].
  cbn [frame_empty negb]. change (String.eqb choice_otherwise "Running") with false.
  cbv iota. apply select_inverted_mask.
Qed.

(** C8, as the claim states it, fails: a campaign whose state reads
    RUNNING (the text the parser kept from the document) is shown under
    Running, although its state is not the text Running. *)
Lemma running_filter_ignores_case :
  parse_campaigns_json (rt := Ref.runtime)
    (PyStr.jtext "{`Name`:`A`,`State`:`RUNNING`,`Type`:`Inbound`}")
  = Return [{| Name := VStr "A"; State := "RUNNING"; Type_ := "Inbound" |}]
  /\ filtered_df choice_running
       [{| Name := VStr "A"; State := "RUNNING"; Type_ := "Inbound" |}]
     = [{| Name := VStr "A"; State := "RUNNING"; Type_ := "Inbound" |}]
  /\ String.eqb "RUNNING" "Running" = false
  /\ filtered_df choice_otherwise
       [{| Name := VStr "A"; State := "RUNNING"; Type_ := "Inbound" |}]
     = [].
Proof. repeat split. Qed.

(** C8, amended. For every campaign table, the choice Running shows
    exactly the rows whose state, with its letters lowered, reads
    running; the choice Otherwise shows exactly the other rows; no row
    is shown under both, and the two selections together are the whole
    table, each row as often as it occurs there, both in the table's
    order. *)
Theorem filter_splits_campaigns (campaigns_df : DataFrame) :
  (forall row,
     In row (filtered_df choice_running campaigns_df)
     <-> In row campaigns_df /\ PyStr.lower (State row) = "running")
  /\ (forall row,
        In row (filtered_df choice_otherwise campaigns_df)
        <-> In row campaigns_df /\ PyStr.lower (State row) <> "running")
  /\ (forall row,
        In row (filtered_df choice_running campaigns_df) ->
        In row (filtered_df choice_otherwise campaigns_df) -> False)
  /\ Permutation (filtered_df choice_running campaigns_df
                  ++ filtered_df choice_otherwise campaigns_df)
                 campaigns_df.
Proof.
  rewrite filtered_df_running, filtered_df_otherwise.
  assert (Hrun : forall row,
             In row (filter (fun row => String.eqb (PyStr.lower (State row)) "running")
                            campaigns_df)
             <-> In row campaigns_df /\ PyStr.lower (State row) = "running").
  { intros row. rewrite filter_In. now rewrite String.eqb_eq. }
  assert (Hother : forall row,
             In row (filter (fun row => negb (String.eqb (PyStr.lower (State row)) "running"))
                            campaigns_df)
             <-> In row campaigns_df /\ PyStr.lower (State row) <> "running").
  { intros row. rewrite filter_In, negb_true_iff. now rewrite String.eqb_neq. }
  split; [exact Hrun|]. split; [exact Hother|]. split.
  - intros row Hin Hin'. apply Hrun in Hin as [_ Heq].
    apply Hother in Hin' as [_ Hne]. contradiction.
  - apply (filter_split (fun row => String.eqb (PyStr.lower (State row)) "running")).
Qed.

(** * Further properties of the code *)

(** ** [ps_escape] *)

(** X1. [ps_escape] loses nothing: two values with the same escaped text
    are the same value. *)
Theorem ps_escape_injective (a b : string) :
  ps_escape a = ps_escape b -> a = b.
Proof.
  rewrite !ps_escape_replace. intros Hsame.
  pose proof (read_escaped a EmptyString eq_refl) as Ha.
  pose proof (read_escaped b EmptyString eq_refl) as Hb.
  rewrite Hsame, Hb in Ha. now injection Ha.
Qed.

Lemma ps_escape_injective_witness :
  ps_escape "it's" = "it''s" /\ "it's" = "it's".
Proof.
  split; [reflexivity|].
  apply (ps_escape_injective "it's" "it's"). reflexivity.
Defined.

Lemma replace_quote_counts (value : string) :
  String.length (PyStr.replace PyStr.squote "''" value)
  = String.length value + count_quotes value
  /\ count_quotes (PyStr.replace PyStr.squote "''" value) = 2 * count_quotes value.
Proof.
  induction value as [|c value [IHlen IHcount]].
  - split; reflexivity.
  - cbn [PyStr.replace count_quotes String.length].
    destruct (Ascii.eqb c PyStr.squote) eqn:Hc.
    + change ("''" ++ PyStr.replace PyStr.squote "''" value)
        with (String PyStr.squote (String PyStr.squote
                (PyStr.replace PyStr.squote "''" value))).
      cbn [String.length count_quotes]. rewrite Ascii.eqb_refl.
      rewrite IHlen, IHcount. split; lia.
    + cbn [String.length count_quotes]. rewrite Hc, IHlen, IHcount. split; lia.
Qed.

(** X2. The escaped text is longer than the value by one character per
    quote, and holds twice as many quotes. *)
Theorem ps_escape_counts (value : string) :
  String.length (ps_escape value) = String.length value + count_quotes value
  /\ count_quotes (ps_escape value) = 2 * count_quotes value.
Proof. rewrite ps_escape_replace. apply replace_quote_counts. Qed.

(** X3. Escaping the parts of a text and joining them is escaping the
    joined text. *)
Theorem ps_escape_app (a b : string) :
  ps_escape (a ++ b) = ps_escape a ++ ps_escape b.
Proof.
  rewrite !ps_escape_replace. induction a as [|c a IH]; [reflexivity|].
  cbn [append PyStr.replace]. rewrite IH.
  destruct (Ascii.eqb c PyStr.squote); reflexivity.
Qed.

(** X4. [ps_escape] returns a value unchanged exactly when the value
    holds no quote. *)
Theorem ps_escape_fixed_iff_quote_free (value : string) :
  ps_escape value = value <-> count_quotes value = 0.
Proof.
  split.
  - rewrite ps_escape_replace. intros Hfixed.
    pose proof (replace_quote_counts value) as [Hlen _].
    rewrite Hfixed in Hlen. lia.
  - rewrite ps_escape_replace. induction value as [|c value IH]; [reflexivity|].
    cbn [count_quotes PyStr.replace].
    destruct (Ascii.eqb c PyStr.squote); [discriminate|].
    intros Hnone. now rewrite IH.
Qed.

(** ** The two parsers *)

Section ParserFacts.
Context {rt : PyRuntime}.

(** X5. A document that is one object is parsed as the array holding
    just that object, by both parsers; the campaigns table then has the
    one row of that object. *)
Theorem single_object_is_one_record (raw_object raw_array : string)
  (record : list (string * value)) :
  raw_object <> EmptyString ->
  raw_array <> EmptyString ->
  json_loads raw_object = Return (VDict record) ->
  json_loads raw_array = Return (VList [VDict record]) ->
  parse_campaigns_json raw_object = parse_campaigns_json raw_array
  /\ parse_action_results raw_object = parse_action_results raw_array
  /\ parse_campaigns_json raw_object = Return [normalize_record record].
Proof.
  intros Hne Hne' Hobject Harray.
  unfold parse_campaigns_json, parse_action_results.
  rewrite (truthy_nonempty _ Hne), (truthy_nonempty _ Hne'), Hobject, Harray.
  repeat split.
Qed.

(** X6. A document that is an array of objects gives one row per object,
    in the order of the array. *)
Theorem parse_campaigns_json_rows (raw_json : string)
  (recs : list (list (string * value))) :
  raw_json <> EmptyString ->
  json_loads raw_json = Return (VList (map VDict recs)) ->
  parse_campaigns_json raw_json = Return (map normalize_record recs).
Proof.
  intros Hne Hparsed. unfold parse_campaigns_json.
  rewrite (truthy_nonempty _ Hne), Hparsed. cbn [negb records_of].
  rewrite normalize_loop_objects. cbn [bind app from_records].
  now destruct (map normalize_record recs).
Qed.

Lemma get_set_eqb {V : Type} (d : list (string * V)) (key key' : string) (v : V) :
  Dict.get (Dict.set d key v) key'
  = if String.eqb key key' then Some v else Dict.get d key'.
Proof.
  destruct (String.eqb key key') eqn:Hk.
  - apply String.eqb_eq in Hk. subst key'. apply get_set_same.
  - apply String.eqb_neq in Hk. now apply get_set_other.
Qed.

Lemma lower_keys_into_get (rec acc : list (string * value)) (key : string) :
  Dict.get (lower_keys_into acc rec) key
  = fold_left (fun found kv =>
                 if String.eqb (PyStr.lower (fst kv)) key then Some (snd kv)
                 else found)
              rec (Dict.get acc key).
Proof.
  revert acc. induction rec as [|[k v] rec IH]; intros acc; [reflexivity|].
  cbn [lower_keys_into fold_left fst snd]. rewrite IH. now rewrite get_set_eqb.
Qed.

(** X7. The fields of a row come from the record's keys read without
    regard to casing, and when several keys of the record read alike the
    last one counts; a field the record lacks is the empty text. *)
Theorem normalize_record_last_key_wins (rec : list (string * value)) :
  Name (normalize_record rec) = field_or_blank (last_field "name" rec)
  /\ State (normalize_record rec)
     = label_of STATE_MAP (field_or_blank (last_field "state" rec))
  /\ Type_ (normalize_record rec)
     = label_of TYPE_MAP (field_or_blank (last_field "type" rec)).
Proof.
  unfold normalize_record, lower_keys, Dict.get_default, last_field.
  cbn [Name State Type_]. rewrite !lower_keys_into_get. repeat split.
Qed.

(** X8. Neither parser lets the decoder's [JSONDecodeError] out: what a
    parser raises is the [AttributeError] of a record that is no object,
    or an exception of another class that the decoder raised. *)
Theorem parsers_never_leak_decode_error (raw_json : string) :
  (forall e,
     parse_campaigns_json raw_json = Raise e ->
     e <> JSONDecodeError
     /\ (e = AttributeError "items" \/ json_loads raw_json = Raise e))
  /\ (forall e,
        parse_action_results raw_json = Raise e ->
        e <> JSONDecodeError
        /\ (e = AttributeError "get" \/ json_loads raw_json = Raise e)).
Proof.
  unfold parse_campaigns_json, parse_action_results.
  destruct (PyStr.truthy raw_json); cbn [negb]; [|split; intros e; discriminate].
  destruct (json_loads raw_json) as [parsed|[| |]] eqn:Hloads;
    try (split; intros e H; try discriminate; injection H as He; subst e;
         (split; [discriminate|now right])).
  destruct (forallb is_dict (records_of parsed)) eqn:Hall.
  - destruct (normalize_loop_returns _ [] Hall) as [rows ->].
    destruct (classify_loop_returns _ ([], []) Hall) as [results ->].
    cbn [bind]. split; intros e; [|discriminate].
    destruct (frame_empty (from_records rows)); discriminate.
  - rewrite (normalize_loop_raises _ [] Hall), (classify_loop_raises _ ([], []) Hall).
    cbn [bind]. split; intros e H; injection H as He; subst e;
      (split; [discriminate|now left]).
Qed.

Lemma set_keeps_keys_unique {V : Type} (d : list (string * V)) (key : string) (v : V) :
  NoDup (Dict.keys d) -> NoDup (Dict.keys (Dict.set d key v)).
Proof.
  unfold Dict.keys. induction d as [|[k w] d IH]; intros Hd; cbn [Dict.set map fst].
  - constructor; [intros []|constructor].
  - inversion Hd as [|? ? Hnotin Hrest]; subst.
    destruct (String.eqb k key) eqn:Hk; cbn [map fst]; [exact Hd|].
    constructor; [|now apply IH].
    intros Hin. apply (keys_set d key k v) in Hin as [-> | Hin].
    + now rewrite String.eqb_refl in Hk.
    + now apply Hnotin.
Qed.

Lemma classify_loop_keys_unique (records : list value) (acc results : action_results) :
  NoDup (Dict.keys (snd acc)) ->
  classify_loop records acc = Return results ->
  NoDup (Dict.keys (snd results)).
Proof.
  revert acc. induction records as [|record records IH]; intros acc Hacc Hloop.
  - cbn [classify_loop] in Hloop. now injection Hloop as <-.
  - cbn [classify_loop] in Hloop. destruct record; try discriminate.
    cbn [getter bind] in Hloop. refine (IH _ _ Hloop).
    destruct acc as [successes failures]. rewrite classify_record_spec.
    destruct (spec_success d); cbn [snd] in *; [exact Hacc|].
    now apply set_keeps_keys_unique.
Qed.

(** X9. Whatever the document, the failures [parse_action_results]
    returns hold each name once: records that fail under one name share
    one entry. *)
Theorem failures_keys_unique (raw_json : string) (successes : list string)
  (failures : list (string * string)) :
  parse_action_results raw_json = Return (successes, failures) ->
  NoDup (Dict.keys failures).
Proof.
  unfold parse_action_results.
  destruct (PyStr.truthy raw_json); cbn [negb].
  - destruct (json_loads raw_json) as [parsed|[| |]]; try discriminate.
    + intros Hloop.
      apply (classify_loop_keys_unique _ ([], []) _ (NoDup_nil _)) in Hloop.
      exact Hloop.
    + intros H. injection H as <- <-. constructor; [intros []|constructor].
  - intros H. injection H as <- <-. constructor.
Qed.

(** X10. An integer code of the table becomes the table's label, any
    other integer its decimal text, a text stays as it is, and [null]
    becomes the text None. *)
Theorem codes_and_texts_are_labelled :
  (forall n, (0 <= n <= 3)%Z -> In (n, label_of STATE_MAP (VInt n)) STATE_MAP)
  /\ (forall n, (n < 0 \/ 3 < n)%Z -> label_of STATE_MAP (VInt n) = PyStr.of_Z n)
  /\ (forall n, (0 <= n <= 2)%Z -> In (n, label_of TYPE_MAP (VInt n)) TYPE_MAP)
  /\ (forall n, (n < 0 \/ 2 < n)%Z -> label_of TYPE_MAP (VInt n) = PyStr.of_Z n)
  /\ (forall table s, label_of table (VStr s) = s)
  /\ (forall table, label_of table VNone = "None").
Proof.
  split; [|split; [exact state_code_outside_table|split;
           [|split; [exact type_code_outside_table|split; reflexivity]]]].
  - intros n Hn.
    assert (n = 0 \/ n = 1 \/ n = 2 \/ n = 3)%Z as [-> | [-> | [-> | ->]]] by lia;
      cbn; tauto.
  - intros n Hn.
    assert (n = 0 \/ n = 1 \/ n = 2)%Z as [-> | [-> | ->]] by lia; cbn; tauto.
Qed.

End ParserFacts.

Lemma single_object_is_one_record_witness :
  parse_campaigns_json (rt := Ref.runtime)
    (PyStr.jtext "{`Name`:`A`,`State`:`Stopping`}")
  = parse_campaigns_json (rt := Ref.runtime)
      (PyStr.jtext "[{`Name`:`A`,`State`:`Stopping`}]")
  /\ parse_campaigns_json (rt := Ref.runtime)
       (PyStr.jtext "{`Name`:`A`,`State`:`Stopping`}")
     = Return [{| Name := VStr "A"; State := "Stopping"; Type_ := EmptyString |}].
Proof.
  pose proof (single_object_is_one_record (rt := Ref.runtime)
                (PyStr.jtext "{`Name`:`A`,`State`:`Stopping`}")
                (PyStr.jtext "[{`Name`:`A`,`State`:`Stopping`}]")
                [("Name", VStr "A"); ("State", VStr "Stopping")]) as H.
  destruct H as (Hsame & _ & Hrow); try reflexivity; try discriminate.
  split; [exact Hsame|exact Hrow].
Defined.

Lemma parse_campaigns_json_rows_witness :
  parse_campaigns_json (rt := Ref.runtime)
    (PyStr.jtext "[{`name`:`A`,`state`:1},{`Name`:`B`,`name`:`C`,`TYPE`:7}]")
  = Return [ {| Name := VStr "A"; State := "Starting"; Type_ := EmptyString |};
             {| Name := VStr "C"; State := EmptyString; Type_ := "7" |} ].
Proof.
  apply (parse_campaigns_json_rows (rt := Ref.runtime)
           (PyStr.jtext "[{`name`:`A`,`state`:1},{`Name`:`B`,`name`:`C`,`TYPE`:7}]")
           [ [("name", VStr "A"); ("state", VInt 1)];
             [("Name", VStr "B"); ("name", VStr "C"); ("TYPE", VInt 7)] ]).
  - discriminate.
  - reflexivity.
Defined.

Lemma parsers_never_leak_decode_error_witness :
  parse_campaigns_json (rt := Ref.runtime) "[1,2]" = Raise (AttributeError "items")
  /\ AttributeError "items" <> JSONDecodeError.
Proof.
  split; [reflexivity|].
  apply (proj1 (parsers_never_leak_decode_error (rt := Ref.runtime) "[1,2]")
               (AttributeError "items") eq_refl).
Defined.

Lemma failures_keys_unique_witness :
  parse_action_results (rt := Ref.runtime)
    (PyStr.jtext "[{`Name`:`A`,`Error`:`x`},{`Name`:`A`,`Error`:`y`},{`Name`:`B`}]")
  = Return ([], [("A", "y"); ("B", "Unknown error")])
  /\ NoDup (Dict.keys [("A", "y"); ("B", "Unknown error")]).
Proof.
  split; [reflexivity|].
  apply (failures_keys_unique (rt := Ref.runtime)
           (PyStr.jtext "[{`Name`:`A`,`Error`:`x`},{`Name`:`A`,`Error`:`y`},{`Name`:`B`}]")
           []). reflexivity.
Defined.

(** ** The life of an install job *)

(** X11. The two buttons Check Installer Status and Clear Install Status
    are hidden exactly when the job is idle, that is, when none of the
    lock, stdout and stderr files exists. *)
Theorem buttons_hidden_iff_idle (fs : files) :
  (panel_shown fs = false <-> get_install_status fs = idle_status)
  /\ (panel_shown fs = false
      <-> content fs _INSTALL_LOCK = None
          /\ content fs _INSTALL_STDOUT = None
          /\ content fs _INSTALL_STDERR = None).
Proof.
  destruct fs as [[out|] [err|] [lock|] script];
    split; split; intros H;
    try reflexivity; try discriminate;
    try (destruct H as (H1 & H2 & H3); discriminate);
    try (repeat split; reflexivity).
Qed.

Section JobLife.
Context {rt : PyRuntime}.

(** X12. A start that is accepted leaves the job running with no output:
    whatever an earlier install had left in the stdout and stderr files
    is gone, the wrapper script is written, and one process is started,
    with the launch command as its command. *)
Theorem accepted_start_resets (fs : files) :
  running (get_install_status fs) = false ->
  get_install_status (fst (fst (install_clicked fs)))
  = {| running := true; stdout := EmptyString; stderr := EmptyString;
       done := false |}
  /\ content (fst (fst (install_clicked fs))) script_file
     = Some (wrapper_script install_command)
  /\ snd (fst (install_clicked fs)) = [ps_base_args launch_cmd].
Proof.
  intros Hidle. unfold install_clicked. rewrite Hidle.
  destruct fs as [out err lock script]. repeat split.
Qed.

(** X14. After Clear Install Status a start is always accepted, whatever
    the job was doing: one process is started and the job is running. *)
Theorem clear_then_install_accepted (fs : files) :
  snd (fst (install_clicked (clear_install_status fs))) = [ps_base_args launch_cmd]
  /\ running (get_install_status (fst (fst (install_clicked (clear_install_status fs)))))
     = true.
Proof. destruct fs as [[out|] [err|] [lock|] script]; split; reflexivity. Qed.

End JobLife.

Lemma accepted_start_resets_witness :
  let fs := {| stdout_txt := Some "Installed 1.0"; stderr_txt := Some "old error";
               running_lock := None; install_script_ps1 := None |} in
  running (get_install_status fs) = false
  /\ get_install_status (fst (fst (install_clicked (rt := Ref.runtime) fs)))
     = {| running := true; stdout := EmptyString; stderr := EmptyString;
          done := false |}.
Proof.
  cbv zeta. split; [reflexivity|].
  apply (accepted_start_resets (rt := Ref.runtime)). reflexivity.
Defined.

(** ** The session and the credentials *)

Lemma fill_defaults_get (defaults session_state : list (string * App.session_value))
  (key : string) :
  Dict.get (App.fill_defaults defaults session_state) key
  = match Dict.get session_state key with
    | Some v => Some v
    | None => Dict.get defaults key
    end.
Proof.
  unfold App.fill_defaults. revert session_state.
  induction defaults as [|[k v] defaults IH]; intros st; cbn [fold_left fst snd].
  - now destruct (Dict.get st key).
  - rewrite IH. unfold App.contains. cbn [Dict.get].
    destruct (Dict.get st k) as [w|] eqn:Hk; cbn [negb].
    + destruct (String.eqb k key) eqn:Hkey; [|reflexivity].
      apply String.eqb_eq in Hkey. subst key. now rewrite Hk.
    + rewrite get_set_eqb.
      destruct (String.eqb k key) eqn:Hkey; [|reflexivity].
      apply String.eqb_eq in Hkey. subst key. now rewrite Hk.
Qed.

Lemma fill_defaults_present (defaults session_state : list (string * App.session_value)) :
  (forall key, In key (Dict.keys defaults) -> App.contains session_state key = true) ->
  App.fill_defaults defaults session_state = session_state.
Proof.
  unfold App.fill_defaults.
  induction defaults as [|[k v] defaults IH]; intros Hall; [reflexivity|].
  cbn [fold_left fst snd]. rewrite (Hall k); [|now left]. cbn [negb].
  apply IH. intros key Hin. apply Hall. now right.
Qed.

(** X16. Filling the session with the defaults keeps every entry the
    session already holds and adds, for each of the five keys it lacks,
    the default; doing it again changes nothing. *)
Theorem init_session_state_fills (session_state : list (string * App.session_value)) :
  (forall key,
     Dict.get (App.init_session_state session_state) key
     = match Dict.get session_state key with
       | Some v => Some v
       | None => Dict.get App.get_default_state key
       end)
  /\ App.init_session_state (App.init_session_state session_state)
     = App.init_session_state session_state.
Proof.
  split.
  - intros key. apply fill_defaults_get.
  - unfold App.init_session_state at 1. apply fill_defaults_present.
    intros key Hin. unfold App.contains, App.init_session_state.
    rewrite fill_defaults_get.
    destruct (Dict.get session_state key); [reflexivity|].
    cbn in Hin. destruct Hin as [<- | [<- | [<- | [<- | [<- | []]]]]]; reflexivity.
Qed.

(** X17. The effective credentials are the typed pair or the cached
    pair, never the user name of one with the password of the other; the
    cached pair is taken only when cached credentials are to be used and
    the typed pair is not complete; and the result is complete exactly
    when the typed pair is, or the cached pair is and may be used. *)
Theorem effective_credentials_source (st : App.session)
  (username password : string) (use_cached : bool) :
  let effective := App.get_effective_credentials st username password use_cached in
  (effective = (username, password)
   \/ (use_cached = true /\ App.usable (username, password) = false
       /\ effective = (App.cached_user st, App.cached_pass st)))
  /\ App.usable effective
     = App.usable (username, password)
       || (use_cached && App.usable (App.cached_user st, App.cached_pass st)).
Proof.
  cbv zeta. unfold App.get_effective_credentials, App.usable. cbn [fst snd].
  destruct (PyStr.truthy username) eqn:Htu, (PyStr.truthy password) eqn:Htp,
    use_cached,
    (PyStr.truthy (App.cached_user st)) eqn:Hu,
    (PyStr.truthy (App.cached_pass st)) eqn:Hp;
    cbn [andb orb fst snd]; rewrite ?Htu, ?Htp, ?Hu, ?Hp; cbn [andb orb];
    (split; [|reflexivity]); try (now left); right; now repeat split.
Qed.

Lemma falsy_is_empty (s : string) : PyStr.truthy s = false -> s = EmptyString.
Proof. destruct s; [reflexivity|discriminate]. Qed.

(** X18. The cached credentials stay a whole pair: if the cached user
    name and password are both there or both empty before the sidebar
    runs, they are so after it, whatever is typed, ticked and clicked. *)
Theorem cached_pair_stays_whole (username password : string)
  (remember_creds clear_clicked : bool) (st : App.session) :
  PyStr.truthy (App.cached_user st) = PyStr.truthy (App.cached_pass st) ->
  let st' := fst (App.sidebar_credentials username password
                                          remember_creds clear_clicked st) in
  PyStr.truthy (App.cached_user st') = PyStr.truthy (App.cached_pass st').
Proof.
  cbv zeta. intros Hwhole. unfold App.sidebar_credentials.
  destruct (remember_creds && PyStr.truthy username && PyStr.truthy password) eqn:Hrem.
  - apply andb_prop in Hrem as [Hrem Hp]. apply andb_prop in Hrem as [_ Hu].
    cbn [App.set_cached App.cached_user App.cached_pass]. rewrite Hu, Hp.
    cbn [andb]. destruct clear_clicked; cbn; [reflexivity|now rewrite Hu, Hp].
  - destruct (PyStr.truthy (App.cached_user st) && PyStr.truthy (App.cached_pass st));
      [|exact Hwhole].
    destruct clear_clicked; [reflexivity|exact Hwhole].
Qed.

(** X19. Credentials typed completely with Remember ticked are used in a
    later run in which the typed pair is not complete and cached
    credentials are to be used; with that box unticked the typed pair is
    returned as it is. *)
Theorem remember_then_reuse (username password : string) (st : App.session) :
  App.usable (username, password) = true ->
  let st' := fst (App.sidebar_credentials username password true false st) in
  (forall typed_user typed_pass,
     App.usable (typed_user, typed_pass) = false ->
     App.get_effective_credentials st' typed_user typed_pass true
     = (username, password))
  /\ (forall typed_user typed_pass,
        App.get_effective_credentials st' typed_user typed_pass false
        = (typed_user, typed_pass)).
Proof.
  cbv zeta. unfold App.usable. cbn [fst snd]. intros Husable.
  apply andb_prop in Husable as [Hu Hp].
  unfold App.sidebar_credentials. rewrite Hu, Hp. cbn [andb].
  cbn [App.set_cached App.cached_user App.cached_pass]. rewrite Hu, Hp.
  cbn [andb fst]. split.
  - intros typed_user typed_pass Htyped. unfold App.get_effective_credentials.
    rewrite Htyped. cbn [App.set_cached App.cached_user App.cached_pass andb].
    now rewrite Hu, Hp.
  - intros typed_user typed_pass. unfold App.get_effective_credentials.
    now destruct (PyStr.truthy typed_user && PyStr.truthy typed_pass).
Qed.

(** X20. After a run in which Clear cached credentials was clicked, no
    credentials are cached (also when Remember was ticked in that run),
    and the effective credentials are the typed pair. *)
Theorem clear_cached_forgets (username password : string)
  (remember_creds : bool) (st : App.session) :
  PyStr.truthy (App.cached_user st) = PyStr.truthy (App.cached_pass st) ->
  let st' := fst (App.sidebar_credentials username password remember_creds true st) in
  App.cached_user st' = EmptyString
  /\ App.cached_pass st' = EmptyString
  /\ (forall typed_user typed_pass use_cached,
        App.get_effective_credentials st' typed_user typed_pass use_cached
        = (typed_user, typed_pass)).
Proof.
  cbv zeta. intros Hwhole.
  assert (Hempty :
            App.cached_user (fst (App.sidebar_credentials username password
                                                          remember_creds true st))
            = EmptyString
            /\ App.cached_pass (fst (App.sidebar_credentials username password
                                                             remember_creds true st))
               = EmptyString).
  { unfold App.sidebar_credentials.
    destruct (remember_creds && PyStr.truthy username && PyStr.truthy password) eqn:Hrem.
    - apply andb_prop in Hrem as [Hrem Hp]. apply andb_prop in Hrem as [_ Hu].
      cbn [App.set_cached App.cached_user App.cached_pass]. rewrite Hu, Hp.
      split; reflexivity.
    - destruct (PyStr.truthy (App.cached_user st)) eqn:Hu;
        rewrite <- Hwhole; cbn [andb fst]; [split; reflexivity|].
      symmetry in Hwhole. split; now apply falsy_is_empty. }
  destruct Hempty as [Hu Hp]. split; [exact Hu|split; [exact Hp|]].
  intros typed_user typed_pass use_cached. unfold App.get_effective_credentials.
  rewrite Hu, Hp. cbn [PyStr.truthy]. rewrite andb_false_r.
  now destruct (PyStr.truthy typed_user && PyStr.truthy typed_pass).
Qed.

Lemma cached_pair_stays_whole_witness :
  let st := {| App.campaigns_df := []; App.last_stdout := EmptyString;
               App.last_stderr := EmptyString; App.cached_user := EmptyString;
               App.cached_pass := EmptyString |} in
  App.cached_user (fst (App.sidebar_credentials "ann" EmptyString true true st))
  = EmptyString
  /\ PyStr.truthy (App.cached_user (fst (App.sidebar_credentials "ann" "s3cret" true false st)))
     = PyStr.truthy (App.cached_pass (fst (App.sidebar_credentials "ann" "s3cret" true false st))).
Proof.
  cbv zeta. split; [reflexivity|].
  apply (cached_pair_stays_whole "ann" "s3cret" true false). reflexivity.
Defined.

Lemma remember_then_reuse_witness :
  let st := {| App.campaigns_df := []; App.last_stdout := EmptyString;
               App.last_stderr := EmptyString; App.cached_user := EmptyString;
               App.cached_pass := EmptyString |} in
  App.get_effective_credentials
    (fst (App.sidebar_credentials "ann" "s3cret" true false st)) "bob" EmptyString true
  = ("ann", "s3cret").
Proof.
  cbv zeta.
  apply (proj1 (remember_then_reuse "ann" "s3cret" _ eq_refl) "bob" EmptyString).
  reflexivity.
Defined.

Lemma clear_cached_forgets_witness :
  let st := {| App.campaigns_df := []; App.last_stdout := EmptyString;
               App.last_stderr := EmptyString; App.cached_user := "ann";
               App.cached_pass := "s3cret" |} in
  App.cached_user (fst (App.sidebar_credentials "ann" "s3cret" true true st))
  = EmptyString.
Proof.
  cbv zeta.
  apply (proj1 (clear_cached_forgets "ann" "s3cret" true
                  {| App.campaigns_df := []; App.last_stdout := EmptyString;
                     App.last_stderr := EmptyString; App.cached_user := "ann";
                     App.cached_pass := "s3cret" |} eq_refl)).
Defined.

(** ** The handlers that run PowerShell *)

Section HandlerFacts.
Context {rt : PyRuntime}.
Variable json_dumps : list value -> string.

(** X21. Get Campaign Status runs at most one process, the script with
    the effective credentials and the fetch command, and none when the
    credentials are incomplete (the session is then left as it is).  It
    never touches the cached credentials, it stores the trimmed output
    of the process it ran, and it replaces the campaigns only when that
    process wrote nothing to stderr and its stdout was parsed: a failed
    fetch keeps the campaigns loaded before. *)
Theorem fetch_replaces_campaigns_only_on_success (username password : string)
  (use_cached : bool) (captured : App.completed) (st : App.session) :
  let effective := App.get_effective_credentials st username password use_cached in
  let r := App.get_campaign_status_clicked username password use_cached captured st in
  App.cached_user (session_after r) = App.cached_user st
  /\ App.cached_pass (session_after r) = App.cached_pass st
  /\ (App.usable effective = false ->
      r = (st, [], Return [Error "Enter username and password before fetching campaigns."]))
  /\ (App.usable effective = true ->
      processes_run r
      = [ps_base_args (ps_script (fst effective) (snd effective) App.fetch_command)]
      /\ App.last_stdout (session_after r) = PyStr.strip (fst captured)
      /\ App.last_stderr (session_after r) = PyStr.strip (snd captured))
  /\ (App.campaigns_df (session_after r) = App.campaigns_df st
      \/ (PyStr.strip (snd captured) = EmptyString
          /\ parse_campaigns_json (PyStr.strip (fst captured))
             = Return (App.campaigns_df (session_after r)))).
Proof.
  cbv zeta. unfold App.get_campaign_status_clicked, App.usable.
  destruct (App.get_effective_credentials st username password use_cached)
    as [eff_user eff_pass].
  cbn [fst snd].
  destruct (PyStr.truthy eff_user), (PyStr.truthy eff_pass); cbn [negb orb andb];
    try (repeat split; try discriminate; now left).
  unfold App.run_powershell_command.
  destruct (PyStr.truthy (PyStr.strip (snd captured))) eqn:Herr.
  - repeat split; try discriminate. now left.
  - apply falsy_is_empty in Herr.
    destruct (parse_campaigns_json (PyStr.strip (fst captured))) as [df|e] eqn:Hparse.
    + repeat split; try discriminate. right. split; [exact Herr|reflexivity].
    + repeat split; try discriminate. now left.
Qed.

(** X22. When the action button is enabled (the change is confirmed,
    some campaign is selected and the effective credentials are
    complete), a click on it runs the action: the first process is the
    script with the effective credentials and the command built from the
    selected names. *)
Theorem enabled_action_runs_script (status_choice : string)
  (selected_campaigns : list value) (confirm_change auto_refresh : bool)
  (username password : string) (use_cached : bool)
  (captured_action captured_refresh : App.completed) (st : App.session) :
  let effective := App.get_effective_credentials st username password use_cached in
  App.action_enabled confirm_change selected_campaigns (fst effective) (snd effective)
  = true ->
  exists more,
    processes_run
      (App.action_clicked json_dumps status_choice selected_campaigns auto_refresh
                          username password use_cached
                          captured_action captured_refresh st)
    = ps_base_args
        (ps_script (fst effective) (snd effective)
           (App.ps_command (App.action_command status_choice)
                           (json_dumps selected_campaigns)))
      :: more.
Proof.
  cbv zeta. unfold App.action_enabled, App.action_clicked, App.perform_action.
  destruct (App.get_effective_credentials st username password use_cached)
    as [eff_user eff_pass].
  cbn [fst snd]. intros Henabled.
  apply andb_prop in Henabled as [Henabled Hp].
  apply andb_prop in Henabled as [Henabled Hu].
  apply andb_prop in Henabled as [_ Hselected].
  destruct selected_campaigns as [|name names]; [discriminate|].
  rewrite Hu, Hp. cbn [negb orb andb]. unfold App.run_powershell_command.
  destruct (PyStr.truthy (PyStr.strip (snd captured_action))).
  - destruct auto_refresh; cbn [andb]; [|now eexists].
    unfold App.refresh_after, App.run_powershell_command.
    destruct (PyStr.truthy (PyStr.strip (snd captured_refresh))); cbn [negb].
    + now eexists.
    + destruct (parse_campaigns_json _); now eexists.
  - destruct (parse_action_results _) as [results|e]; [|now eexists].
    destruct auto_refresh; cbn [andb]; [|now eexists].
    unfold App.refresh_after, App.run_powershell_command.
    destruct (PyStr.truthy (PyStr.strip (snd captured_refresh))); cbn [negb].
    + now eexists.
    + destruct (parse_campaigns_json _); now eexists.
Qed.

(** X23. With incomplete effective credentials a click on the action
    button runs no process, neither the action nor the refresh, and
    leaves the session as it is. *)
Theorem action_without_credentials_runs_nothing (status_choice : string)
  (selected_campaigns : list value) (auto_refresh : bool)
  (username password : string) (use_cached : bool)
  (captured_action captured_refresh : App.completed) (st : App.session) :
  App.usable (App.get_effective_credentials st username password use_cached) = false ->
  App.action_clicked json_dumps status_choice selected_campaigns auto_refresh
                     username password use_cached captured_action captured_refresh st
  = (st, [], Return [Error "Enter username and password before running actions."]).
Proof.
  unfold App.usable, App.action_clicked.
  destruct (App.get_effective_credentials st username password use_cached)
    as [eff_user eff_pass].
  cbn [fst snd]. intros Hunusable.
  destruct (PyStr.truthy eff_user), (PyStr.truthy eff_pass); try discriminate;
    reflexivity.
Qed.

(** X24. A click on the action button replaces the campaigns only
    through the refresh: when the refresh is off they stay, and when
    they change the refresh process wrote nothing to stderr and its
    stdout was parsed.  The cached credentials are never touched. *)
Theorem campaigns_change_only_by_refresh (status_choice : string)
  (selected_campaigns : list value) (auto_refresh : bool)
  (username password : string) (use_cached : bool)
  (captured_action captured_refresh : App.completed) (st : App.session) :
  let r := App.action_clicked json_dumps status_choice selected_campaigns auto_refresh
                              username password use_cached
                              captured_action captured_refresh st in
  App.cached_user (session_after r) = App.cached_user st
  /\ App.cached_pass (session_after r) = App.cached_pass st
  /\ length (processes_run r) <= 2
  /\ (App.campaigns_df (session_after r) = App.campaigns_df st
      \/ (auto_refresh = true
          /\ PyStr.strip (snd captured_refresh) = EmptyString
          /\ parse_campaigns_json (PyStr.strip (fst captured_refresh))
             = Return (App.campaigns_df (session_after r)))).
Proof.
  cbv zeta. unfold App.action_clicked, App.perform_action.
  destruct (App.get_effective_credentials st username password use_cached)
    as [eff_user eff_pass].
  assert (Hrefresh : forall st1 runs1 notes,
             length runs1 <= 1 ->
             App.cached_user st1 = App.cached_user st ->
             App.cached_pass st1 = App.cached_pass st ->
             App.campaigns_df st1 = App.campaigns_df st ->
             let r := if auto_refresh && PyStr.truthy eff_user && PyStr.truthy eff_pass
                      then let '(st2, runs2, refreshed) :=
                             App.refresh_after eff_user eff_pass captured_refresh st1 in
                           match refreshed with
                           | Raise e => (st2, (runs1 ++ runs2)%list, Raise e)
                           | Return _ => (st2, (runs1 ++ runs2)%list, Return notes)
                           end
                      else (st1, runs1, Return notes) in
             App.cached_user (session_after r) = App.cached_user st
             /\ App.cached_pass (session_after r) = App.cached_pass st
             /\ length (processes_run r) <= 2
             /\ (App.campaigns_df (session_after r) = App.campaigns_df st
                 \/ (auto_refresh = true
                     /\ PyStr.strip (snd captured_refresh) = EmptyString
                     /\ parse_campaigns_json (PyStr.strip (fst captured_refresh))
                        = Return (App.campaigns_df (session_after r))))).
  { intros st1 runs1 notes Hruns Hu Hp Hdf. cbv zeta.
    destruct (auto_refresh && PyStr.truthy eff_user && PyStr.truthy eff_pass) eqn:Hon.
    - apply andb_prop in Hon as [Hon _]. apply andb_prop in Hon as [-> _].
      unfold App.refresh_after, App.run_powershell_command.
      destruct (PyStr.truthy (PyStr.strip (snd captured_refresh))) eqn:Herr; cbn [negb].
      + unfold session_after, processes_run. cbn [fst snd].
        rewrite length_app. cbn [length App.set_last App.cached_user
                                   App.cached_pass App.campaigns_df].
        repeat split; try assumption; try lia. now left.
      + apply falsy_is_empty in Herr.
        destruct (parse_campaigns_json (PyStr.strip (fst captured_refresh)))
          as [df|e] eqn:Hparse;
          unfold session_after, processes_run; cbn [fst snd];
          rewrite length_app;
          cbn [length App.set_last App.set_campaigns App.cached_user
                 App.cached_pass App.campaigns_df];
          repeat split; try assumption; try lia.
        * right. repeat split; assumption.
        * now left.
    - unfold session_after, processes_run. cbn [fst snd].
      repeat split; try assumption; try lia. now left. }
  destruct (negb (PyStr.truthy eff_user) || negb (PyStr.truthy eff_pass)).
  - unfold session_after, processes_run. cbn [fst snd length].
    repeat split; try lia. now left.
  - destruct selected_campaigns as [|name names].
    + unfold session_after, processes_run. cbn [fst snd length].
      repeat split; try lia. now left.
    + unfold App.run_powershell_command.
      destruct (PyStr.truthy (PyStr.strip (snd captured_action))).
      * apply Hrefresh; cbn [length]; try reflexivity; lia.
      * destruct (parse_action_results _) as [results|e].
        -- apply Hrefresh; cbn [length]; try reflexivity; lia.
        -- unfold session_after, processes_run. cbn [fst snd length].
           repeat split; try lia. now left.
Qed.

(** X25. When a campaign is selected, the credentials are complete, the
    refresh is on and the action did not end in an exception, the
    session's last stdout and stderr after the click are those of the
    refresh, the last process run: the output of the action itself is no
    longer kept. *)
Theorem refresh_overwrites_last_output (status_choice : string)
  (selected_campaigns : list value)
  (username password : string) (use_cached : bool)
  (captured_action captured_refresh : App.completed) (st : App.session) :
  let effective := App.get_effective_credentials st username password use_cached in
  let r := App.action_clicked json_dumps status_choice selected_campaigns true
                              username password use_cached
                              captured_action captured_refresh st in
  App.usable effective = true ->
  selected_campaigns <> [] ->
  returns (shown (App.perform_action json_dumps status_choice selected_campaigns
                                     (fst effective) (snd effective)
                                     captured_action st))
  = true ->
  App.last_stdout (session_after r) = PyStr.strip (fst captured_refresh)
  /\ App.last_stderr (session_after r) = PyStr.strip (snd captured_refresh)
  /\ exists before,
       processes_run r
       = (before ++ [ps_base_args (ps_script (fst effective) (snd effective)
                                             App.refresh_command)])%list.
Proof.
  cbv zeta. unfold App.usable, App.action_clicked.
  destruct (App.get_effective_credentials st username password use_cached)
    as [eff_user eff_pass].
  cbn [fst snd]. intros Husable Hselected Hreturns.
  apply andb_prop in Husable as [Hu Hp]. rewrite Hu, Hp. cbn [negb orb andb].
  destruct selected_campaigns as [|name names]; [now contradiction Hselected|].
  destruct (App.perform_action json_dumps status_choice (name :: names)
                               eff_user eff_pass captured_action st)
    as [[st1 runs1] [notes|e]]; [|discriminate].
  unfold App.refresh_after, App.run_powershell_command.
  destruct (PyStr.truthy (PyStr.strip (snd captured_refresh))); cbn [negb].
  - unfold session_after, processes_run. cbn. repeat split. now exists runs1.
  - destruct (parse_campaigns_json _);
      unfold session_after, processes_run; cbn; repeat split; now exists runs1.
Qed.

End HandlerFacts.

(** ** The filter and the action behind the button *)



Lemma enabled_action_runs_script_witness :
  exists more,
    processes_run
      (App.action_clicked (rt := Ref.runtime) dumps_names "Running" [VStr "Sales"] false
         EmptyString EmptyString true
         (PyStr.jtext "{`Name`:`Sales`,`Success`:true,`Error`:null}", EmptyString)
         (EmptyString, EmptyString) demo_session)
    = ps_base_args
        (ps_script "ann" "s3cret"
           (App.ps_command "Stop-Five9Campaign -Force $true"
                           (dumps_names [VStr "Sales"])))
      :: more.
Proof.
  apply (enabled_action_runs_script (rt := Ref.runtime) dumps_names
           "Running" [VStr "Sales"] true false EmptyString EmptyString true
           (PyStr.jtext "{`Name`:`Sales`,`Success`:true,`Error`:null}", EmptyString)
           (EmptyString, EmptyString) demo_session).
  reflexivity.
Defined.

Lemma action_without_credentials_runs_nothing_witness :
  App.action_clicked (rt := Ref.runtime) dumps_names "Running" [VStr "Sales"] true
    "ann" EmptyString false ("out", "err") ("out", "err") demo_session
  = (demo_session, [],
     Return [Error "Enter username and password before running actions."]).
Proof.
  apply (action_without_credentials_runs_nothing (rt := Ref.runtime) dumps_names).
  reflexivity.
Defined.

Lemma refresh_overwrites_last_output_witness :
  App.last_stdout
    (session_after
       (App.action_clicked (rt := Ref.runtime) dumps_names "Running" [VStr "Sales"] true
          EmptyString EmptyString true
          (PyStr.jtext "{`Name`:`Sales`,`Success`:false,`Error`:`busy`}", EmptyString)
          (" [] ", EmptyString) demo_session))
  = "[]".
Proof.
  apply (refresh_overwrites_last_output (rt := Ref.runtime) dumps_names
           "Running" [VStr "Sales"] EmptyString EmptyString true
           (PyStr.jtext "{`Name`:`Sales`,`Success`:false,`Error`:`busy`}", EmptyString)
           (" [] ", EmptyString) demo_session);
    [reflexivity|discriminate|reflexivity].
Defined.


(** ** Edges of the handlers *)

Section HandlerEdges.
Context {rt : PyRuntime}.
Variable json_dumps : list value -> string.

(** X27. [start_install_detached] itself does not look at the lock: also
    on a directory whose lock exists it empties the two output files,
    rewrites the lock and the script and starts a process.  Only the
    button's handler keeps a second start away. *)
Theorem start_install_detached_is_unguarded (command : string) (fs : files) :
  get_install_status (fst (start_install_detached command fs))
  = {| running := true; stdout := EmptyString; stderr := EmptyString;
       done := false |}
  /\ content (fst (start_install_detached command fs)) script_file
     = Some (wrapper_script command)
  /\ snd (start_install_detached command fs) = [ps_base_args launch_cmd].
Proof. destruct fs as [out err lock script]. repeat split. Qed.

(** X28. An action whose process prints nothing, on stdout and on
    stderr, is shown neither as a success nor as a failure: with the
    refresh off, the click shows nothing at all. *)
Theorem silent_action_shows_nothing (status_choice : string)
  (selected_campaigns : list value)
  (username password : string) (use_cached : bool)
  (captured_action captured_refresh : App.completed) (st : App.session) :
  App.action_enabled true selected_campaigns
    (fst (App.get_effective_credentials st username password use_cached))
    (snd (App.get_effective_credentials st username password use_cached))
  = true ->
  PyStr.strip (fst captured_action) = EmptyString ->
  PyStr.strip (snd captured_action) = EmptyString ->
  shown (App.action_clicked json_dumps status_choice selected_campaigns false
                            username password use_cached
                            captured_action captured_refresh st)
  = Return [].
Proof.
  unfold App.action_enabled, App.action_clicked, App.perform_action.
  destruct (App.get_effective_credentials st username password use_cached)
    as [eff_user eff_pass].
  cbn [fst snd andb]. intros Henabled Hout Herr.
  apply andb_prop in Henabled as [Henabled Hp].
  apply andb_prop in Henabled as [Hselected Hu].
  destruct selected_campaigns as [|name names]; [discriminate|].
  rewrite Hu, Hp. cbn [negb orb]. unfold App.run_powershell_command.
  rewrite Hout, Herr. reflexivity.
Qed.

(** X29. A fetch whose process wrote nothing to stderr and whose stdout
    is empty or is refused by the decoder replaces the campaigns loaded
    before by the empty table and shows that no campaigns were
    returned. *)
Theorem unreadable_fetch_clears_campaigns (username password : string)
  (use_cached : bool) (captured : App.completed) (st : App.session) :
  App.usable (App.get_effective_credentials st username password use_cached) = true ->
  PyStr.strip (snd captured) = EmptyString ->
  PyStr.strip (fst captured) = EmptyString
  \/ json_loads (PyStr.strip (fst captured)) = Raise JSONDecodeError ->
  App.campaigns_df
    (session_after (App.get_campaign_status_clicked username password use_cached
                                                    captured st))
  = empty_frame
  /\ shown (App.get_campaign_status_clicked username password use_cached captured st)
     = Return [Warning "No campaigns returned."].
Proof.
  unfold App.usable, App.get_campaign_status_clicked.
  destruct (App.get_effective_credentials st username password use_cached)
    as [eff_user eff_pass].
  cbn [fst snd]. intros Husable Herr Hout.
  apply andb_prop in Husable as [Hu Hp]. rewrite Hu, Hp. cbn [negb orb].
  unfold App.run_powershell_command. rewrite Herr. cbn [PyStr.truthy].
  assert (Hparse : parse_campaigns_json (PyStr.strip (fst captured))
                   = Return empty_frame).
  { unfold parse_campaigns_json. destruct Hout as [-> | Hbad]; [reflexivity|].
    destruct (PyStr.truthy (PyStr.strip (fst captured))); [|reflexivity].
    cbn [negb]. now rewrite Hbad. }
  rewrite Hparse. split; reflexivity.
Qed.

End HandlerEdges.

Lemma silent_action_shows_nothing_witness :
  shown (App.action_clicked (rt := Ref.runtime) dumps_names "Running" [VStr "Sales"]
           false EmptyString EmptyString true
           ("  ", EmptyString) (EmptyString, EmptyString) demo_session)
  = Return [].
Proof.
  apply (silent_action_shows_nothing (rt := Ref.runtime) dumps_names
           "Running" [VStr "Sales"] EmptyString EmptyString true
           ("  ", EmptyString) (EmptyString, EmptyString) demo_session);
    reflexivity.
Defined.

Lemma unreadable_fetch_clears_campaigns_witness :
  App.campaigns_df demo_session <> empty_frame
  /\ App.campaigns_df
       (session_after
          (App.get_campaign_status_clicked (rt := Ref.runtime)
             EmptyString EmptyString true
             ("Get-Five9Campaign : not recognized", EmptyString) demo_session))
     = empty_frame.
Proof.
  split; [discriminate|].
  apply (unreadable_fetch_clears_campaigns (rt := Ref.runtime)
           EmptyString EmptyString true
           ("Get-Five9Campaign : not recognized", EmptyString) demo_session).
  - reflexivity.
  - reflexivity.
  - right. reflexivity.
Defined.
